(** * Notes RAG backend: ingestion and semantic retrieval

    A shallow embedding of the FastAPI backend under [backend/app]:
    - [models/schemas.py]   : the pydantic request and response models,
    - [services/gemini_service.py]  : the calls to the embedding provider,
    - [services/mongodb_service.py] : the note repository over MongoDB,
    - [routes/notes.py]     : the create, search and list endpoints.

    Python [str] values are Rocq strings whose characters are the code points
    below 256; Python [float] values (embedding coordinates, similarity
    scores, wall-clock readings) are idealised as rationals: the code only
    stores, forwards and subtracts them.  A [datetime] is a number of
    milliseconds, the unit in which the store keeps it.  Requests are served
    one after the other.

    The embedding provider and the MongoDB cluster are external: the provider
    is a function of the request, the cluster is a list of documents in
    insertion order with an exact (non approximate) vector search, and every
    call to either of them is recorded in a trace. *)

From Stdlib Require Import Ascii String QArith.
From stdpp Require Import gmap strings list fin_maps sorting pretty.

Open Scope Z_scope.
Open Scope string_scope.

(** ** Python strings *)

Module PyStr.

(** The line feed character, written [\n] in the source. *)
Definition nl : string := String "010"%char EmptyString.

(** [str.isspace] on one character, for the code points below 256. *)
Definition isspace (c : ascii) : bool :=
  let n := nat_of_ascii c in
  ((9 <=? n)%nat && (n <=? 13)%nat) || ((28 <=? n)%nat && (n <=? 32)%nat)
  || (n =? 133)%nat || (n =? 160)%nat.

Fixpoint lstrip (s : string) : string :=
  match s with
  | EmptyString => EmptyString
  | String c s' => if isspace c then lstrip s' else s
  end.

Fixpoint rstrip (s : string) : string :=
  match s with
  | EmptyString => EmptyString
  | String c s' =>
      match rstrip s' with
      | EmptyString => if isspace c then EmptyString else String c EmptyString
      | r => String c r
      end
  end.

(** [s.strip()] *)
Definition strip (s : string) : string := rstrip (lstrip s).

(** [bool(s)]: a string is truthy when it is not empty. *)
Definition truthy (s : string) : bool :=
  match s with EmptyString => false | _ => true end.

(** [len(s)] *)
Definition len (s : string) : Z := Z.of_nat (String.length s).

(** [sep.join(l)] *)
Definition join (sep : string) (l : list string) : string := String.concat sep l.

(** A string made of whitespace only (the empty string included). *)
Fixpoint all_space (s : string) : bool :=
  match s with
  | EmptyString => true
  | String c s' => isspace c && all_space s'
  end.

End PyStr.

(** ** Exceptions *)

Inductive exn_class :=
  | ExceptionC            (* a plain [Exception(msg)] *)
  | ValueErrorC           (* [ValueError(msg)] *)
  | ValidationErrorC      (* pydantic's error, a subclass of ValueError *)
  | RequestValidationC    (* FastAPI's rejection of a request body, status 422 *)
  | InvalidIdC            (* [bson.errors.InvalidId] *)
  | ProviderErrorC        (* whatever [genai.embed_content] raises *)
  | StoreErrorC           (* whatever the MongoDB driver raises *)
  | OverflowErrorC.       (* [OverflowError], of the BSON encoder *)

Inductive exn :=
  | Exn (cls : exn_class) (msg : string)
  | HTTPException (status_code : Z) (detail : string).

(** [str(e)]; Starlette renders an HTTPException as its status code, a colon
    and its detail. *)
Definition py_str (e : exn) : string :=
  match e with
  | Exn _ msg => msg
  | HTTPException code detail => pretty code ++ ": " ++ detail
  end.

(** [isinstance(e, ValueError)] *)
Definition is_ValueError (e : exn) : bool :=
  match e with
  | Exn ValueErrorC _ | Exn ValidationErrorC _ => true
  | _ => false
  end.

(** ** Values and documents *)

Definition float := Q.
Definition datetime := Z.

(** A [bson.ObjectId] is its 12 bytes. *)
Definition ObjectId := list ascii.

Inductive value :=
  | VStr (s : string)
  | VOid (o : ObjectId)
  | VList (l : list string)       (* a list of str *)
  | VVec (v : list float)         (* a list of float *)
  | VDate (t : datetime)
  | VFloat (x : float).

(** A Python dict with string keys, as the driver returns documents. *)
Abbreviation doc := (gmap string value).

(** [app/config.py]: the settings the core reads, with their defaults. *)
Record Settings := {
  gemini_embedding_model : string;
  gemini_embedding_dimensions : Z;
  mongodb_vector_index_name : string;
  vector_search_limit : Z;
  vector_search_num_candidates : Z
}.

Definition default_settings : Settings := {|
  gemini_embedding_model := "models/text-embedding-004";
  gemini_embedding_dimensions := 768;
  mongodb_vector_index_name := "vector_index";
  vector_search_limit := 10;
  vector_search_num_candidates := 100
|}.


(** ** Identifiers: [bson.ObjectId] and its hexadecimal rendering *)

Module Bson.

Definition hex_digit (n : nat) : ascii :=
  match String.get n "0123456789abcdef" with
  | Some c => c
  | None => "0"%char
  end.

(** [binascii.hexlify]: two lowercase digits per byte. *)
Fixpoint hexlify (bs : list ascii) : string :=
  match bs with
  | [] => EmptyString
  | b :: bs' =>
      let n := nat_of_ascii b in
      String (hex_digit (n / 16)) (String (hex_digit (n mod 16)) (hexlify bs'))
  end.

(** The value of a hexadecimal digit, in either case. *)
Definition unhex_digit (c : ascii) : option nat :=
  let n := nat_of_ascii c in
  if ((48 <=? n) && (n <=? 57))%nat then Some (n - 48)%nat
  else if ((97 <=? n) && (n <=? 102))%nat then Some (n - 87)%nat
  else if ((65 <=? n) && (n <=? 70))%nat then Some (n - 55)%nat
  else None.

(** ASCII whitespace, which [bytes.fromhex] skips between bytes. *)
Definition ascii_space (c : ascii) : bool :=
  let n := nat_of_ascii c in
  ((9 <=? n)%nat && (n <=? 13)%nat) || (n =? 32)%nat.

(** [bytes.fromhex]; [None] stands for its ValueError. *)
Fixpoint fromhex (s : string) : option (list ascii) :=
  match s with
  | EmptyString => Some []
  | String c s' =>
      if ascii_space c then fromhex s'
      else
        match s' with
        | EmptyString => None
        | String d s'' =>
            match unhex_digit c, unhex_digit d with
            | Some h, Some l =>
                match fromhex s'' with
                | Some bs => Some (ascii_of_nat (16 * h + l) :: bs)
                | None => None
                end
            | _, _ => None
            end
        end
  end.

(** [str(oid)] *)
Definition ObjectId_str (o : ObjectId) : string := hexlify o.

(** [ObjectId(s)] for a string [s]: 24 characters that [bytes.fromhex]
    accepts, InvalidId otherwise. *)
Definition ObjectId_of_str (s : string) : exn + ObjectId :=
  let invalid :=
    Exn InvalidIdC ("'" ++ s ++ "' is not a valid ObjectId, it must be a 12-byte input or a 24-character hex string") in
  if (String.length s =? 24)%nat then
    match fromhex s with
    | Some bs => inr bs
    | None => inl invalid
    end
  else inl invalid.

(** The largest integer the encoder writes: a BSON integer has at most 8
    bytes. *)
Definition int64_max : Z := 9223372036854775807.

End Bson.

(** ** The note collection and the queries the code sends to it *)

(** The dict literal [note_doc] of [MongoDBService.create_note]: the only
    shape of document this code ever writes. *)
Module NoteDoc.
Record t := {
  title : string;
  content : string;
  user_id : string;
  tags : list string;
  embedding : list float;
  created_at : datetime;
  updated_at : datetime
}.
End NoteDoc.

(** A document of the collection: the written fields under the [_id] the
    insertion gave it. *)
Record StoredNote := {
  stored_id : ObjectId;
  stored_doc : NoteDoc.t
}.

Module Mongo.

(** The document as the driver decodes it into a dict. *)
Definition to_document (n : StoredNote) : doc :=
  let d := stored_doc n in
  <["_id" := VOid (stored_id n)]>
  (<["title" := VStr (NoteDoc.title d)]>
  (<["content" := VStr (NoteDoc.content d)]>
  (<["user_id" := VStr (NoteDoc.user_id d)]>
  (<["tags" := VList (NoteDoc.tags d)]>
  (<["embedding" := VVec (NoteDoc.embedding d)]>
  (<["created_at" := VDate (NoteDoc.created_at d)]>
  (<["updated_at" := VDate (NoteDoc.updated_at d)]> ∅))))))).

Fixpoint vec_eqb (u v : list float) : bool :=
  match u, v with
  | [], [] => true
  | x :: u', y :: v' => Qeq_bool x y && vec_eqb u' v'
  | _, _ => false
  end.

(** Equality of two values as the query language sees it. *)
Definition value_eqb (a b : value) : bool :=
  match a, b with
  | VStr s, VStr t => bool_decide (s = t)
  | VOid o, VOid p => bool_decide (o = p)
  | VList l, VList m => bool_decide (l = m)
  | VVec u, VVec v => vec_eqb u v
  | VDate s, VDate t => (s =? t)%Z
  | VFloat x, VFloat y => Qeq_bool x y
  | _, _ => false
  end.

(** The filters the code writes: [{field: v}] and [{field: {"$eq": v}}],
    on a scalar field. *)
Inductive query_filter :=
  | FieldEq (field : string) (v : value).

Definition matches (f : query_filter) (d : doc) : bool :=
  match f with
  | FieldEq field v =>
      match d !! field with
      | Some dv => value_eqb dv v
      | None => false
      end
  end.

(** The comparison order of BSON types, for the types of [value]. *)
Definition bson_rank (v : value) : nat :=
  match v with
  | VFloat _ => 1
  | VStr _ => 2
  | VList _ | VVec _ => 4
  | VOid _ => 6
  | VDate _ => 8
  end.

(** The sort order on values; two arrays are left in the order they have. *)
Definition bson_leb (a b : value) : bool :=
  match a, b with
  | VFloat x, VFloat y => Qle_bool x y
  | VStr s, VStr t => String.leb s t
  | VOid o, VOid p => String.leb (string_of_list_ascii o) (string_of_list_ascii p)
  | VDate s, VDate t => (s <=? t)%Z
  | _, _ => (bson_rank a <=? bson_rank b)%nat
  end.

(** A missing field sorts before every value. *)
Definition key_leb (a b : option value) : bool :=
  match a, b with
  | None, _ => true
  | Some _, None => false
  | Some x, Some y => bson_leb x y
  end.

Inductive direction := ASCENDING | DESCENDING.

(** [pymongo]'s direction numbers: 1 and -1. *)
Definition direction_of (n : Z) : option direction :=
  if (n =? 1)%Z then Some ASCENDING
  else if (n =? -1)%Z then Some DESCENDING
  else None.

Definition sort_rel (field : string) (dir : direction) (d1 d2 : doc) : Prop :=
  match dir with
  | ASCENDING => Is_true (key_leb (d1 !! field) (d2 !! field))
  | DESCENDING => Is_true (key_leb (d2 !! field) (d1 !! field))
  end.

Global Instance sort_rel_dec field dir d1 d2 : Decision (sort_rel field dir d1 d2) :=
  match dir with
  | ASCENDING => Is_true_dec (key_leb (d1 !! field) (d2 !! field))
  | DESCENDING => Is_true_dec (key_leb (d2 !! field) (d1 !! field))
  end.

(** A projection that excludes fields: [{"embedding": 0}]. *)
Definition exclude (fields : list string) (d : doc) : doc :=
  foldr (λ k acc, delete k acc) d fields.

(** [collection.find(filter, {f: 0, ...}).sort(field, dir).limit(n)] *)
Record FindCursor := {
  find_filter : query_filter;
  find_exclude : list string;
  find_sort : string * direction;
  find_limit : Z
}.

(** The cursor's limit: 0 is no limit, a negative number counts as its
    absolute value. *)
Definition apply_limit {A} (n : Z) (l : list A) : list A :=
  if (n =? 0)%Z then l else take (Z.to_nat (Z.abs n)) l.

Definition eval_find (c : FindCursor) (coll : list StoredNote) : list doc :=
  let found := filter (λ d, Is_true (matches (find_filter c) d)) (to_document <$> coll) in
  let sorted := merge_sort (sort_rel (find_sort c).1 (find_sort c).2) found in
  exclude (find_exclude c) <$> apply_limit (find_limit c) sorted.

(** The [$vectorSearch] stage. *)
Record VectorSearchSpec := {
  index : string;
  path : string;
  queryVector : list float;
  numCandidates : Z;
  limit : Z;
  filter_ : option query_filter
}.

Inductive project_field :=
  | Include                  (* [field: 1] *)
  | MetaVectorSearchScore.   (* [field: {"$meta": "vectorSearchScore"}] *)

Inductive stage :=
  | VectorSearch (spec : VectorSearchSpec)
  | Match (f : query_filter)
  | Project (fields : list (string * project_field)).

(** A document in the pipeline, with the score the search gave it. *)
Definition scored := (doc * float)%type.

Definition score_rel (x y : scored) : Prop := Is_true (Qle_bool y.2 x.2).

Global Instance score_rel_dec x y : Decision (score_rel x y) :=
  Is_true_dec (Qle_bool y.2 x.2).

Definition candidate (sim : list float → list float → float)
    (spec : VectorSearchSpec) (d : doc) : option scored :=
  match d !! path spec with
  | Some (VVec v) =>
      let keep := match filter_ spec with
                  | Some f => matches f d
                  | None => true
                  end in
      if keep then Some (d, sim (queryVector spec) v) else None
  | _ => None
  end.

(** The search proper: the documents that pass the filter are scored and
    ranked, the [numCandidates] nearest are kept, and of these the first
    [limit]. *)
Definition eval_vectorSearch (sim : list float → list float → float)
    (spec : VectorSearchSpec) (coll : list StoredNote) : exn + list scored :=
  if (limit spec <? 1)%Z then
    inl (Exn StoreErrorC "$vectorSearch: limit must be a positive number")
  else if (numCandidates spec <? limit spec)%Z then
    inl (Exn StoreErrorC "$vectorSearch: numCandidates must be at least limit")
  else
    let ranked := merge_sort score_rel (omap (candidate sim spec) (to_document <$> coll)) in
    inr (take (Z.to_nat (limit spec)) (take (Z.to_nat (numCandidates spec)) ranked)).

Definition project_one (fields : list (string * project_field)) (x : scored) : scored :=
  (foldr (λ fp acc,
            match fp.2 with
            | Include =>
                match x.1 !! fp.1 with
                | Some v => <[fp.1 := v]> acc
                | None => acc
                end
            | MetaVectorSearchScore => <[fp.1 := VFloat x.2]> acc
            end) ∅ fields, x.2).

Definition eval_stage (st : stage) (xs : list scored) : exn + list scored :=
  match st with
  | VectorSearch _ =>
      inl (Exn StoreErrorC "$vectorSearch is only valid as the first stage in a pipeline")
  | Match f => inr (filter (λ x, Is_true (matches f x.1)) xs)
  | Project fields => inr (project_one fields <$> xs)
  end.

Fixpoint eval_stages (sts : list stage) (xs : list scored) : exn + list scored :=
  match sts with
  | [] => inr xs
  | st :: sts' =>
      match eval_stage st xs with
      | inl e => inl e
      | inr ys => eval_stages sts' ys
      end
  end.

(** [collection.aggregate(pipeline)] for the pipelines that start with a
    vector search. *)
Definition eval_aggregate (sim : list float → list float → float)
    (pipeline : list stage) (coll : list StoredNote) : exn + list doc :=
  match pipeline with
  | VectorSearch spec :: rest =>
      match eval_vectorSearch sim spec coll with
      | inl e => inl e
      | inr xs =>
          match eval_stages rest xs with
          | inl e => inl e
          | inr ys => inr (fst <$> ys)
          end
      end
  | _ => inl (Exn StoreErrorC "pipeline outside the model")
  end.

End Mongo.

(** ** The world outside the process, and the effects of the code on it *)

(** One call of [genai.embed_content], by its keyword arguments. *)
Record EmbedCall := {
  model : string;
  content : string;
  task_type : string;
  title : option string
}.

Inductive store_op := OpInsertOne | OpFindOne | OpFind | OpAggregate.

(** What the process does to the outside, in the order it does it. *)
Inductive event :=
  | EvEmbedContent (c : EmbedCall)
  | EvInsertOne (d : NoteDoc.t)
  | EvFindOne (f : Mongo.query_filter)
  | EvFind (c : Mongo.FindCursor)
  | EvAggregate (pipeline : list Mongo.stage).

Record World := {
  collection : list StoredNote;
  trace : list event
}.

(** What the outside answers during one request. *)
Record Env := {
  embed_content : EmbedCall → exn + list float;
  similarity : list float → list float → float;
  store_fault : store_op → option exn;
  utcnow : datetime;
  new_object_id : ObjectId;
  time_start : float;
  time_end : float
}.

(** A computation that may raise and acts on the world. *)
Definition Py (A : Type) : Type := World → World * (exn + A).

Definition ret {A} (a : A) : Py A := λ w, (w, inr a).

Definition raise {A} (e : exn) : Py A := λ w, (w, inl e).

Definition bind {A B} (m : Py A) (k : A → Py B) : Py B :=
  λ w, match m w with
       | (w', inl e) => (w', inl e)
       | (w', inr a) => k a w'
       end.

(** [try: m  except Exception as e: h e] *)
Definition try_except {A} (m : Py A) (h : exn → Py A) : Py A :=
  λ w, match m w with
       | (w', inl e) => h e w'
       | (w', inr a) => (w', inr a)
       end.

(** A pure step that may raise. *)
Definition lift {A} (r : exn + A) : Py A := λ w, (w, r).

Notation "'let*' x ':=' m 'in' k" := (bind m (λ x, k))
  (at level 10, x name, m at level 100, k at level 200).

(** A [for] loop that rebuilds a list and stops at the first exception. *)
Fixpoint for_each {A B} (f : A → exn + B) (l : list A) : exn + list B :=
  match l with
  | [] => inr []
  | x :: l' =>
      match f x with
      | inl e => inl e
      | inr y =>
          match for_each f l' with
          | inl e => inl e
          | inr ys => inr (y :: ys)
          end
      end
  end.

(** The world once [ev] has happened. *)
Definition logged (ev : event) (w : World) : World :=
  {| collection := collection w; trace := trace w ++ [ev] |}.

Definition log (ev : event) : Py unit := λ w, (logged ev w, inr tt).

Section Driver.
Variable env : Env.

(** [genai.embed_content(...)] *)
Definition genai_embed_content (c : EmbedCall) : Py (list float) :=
  let* _ := log (EvEmbedContent c) in
  lift (embed_content env c).

(** [collection.insert_one(d)]: the driver gives the document a new
    identifier and the server refuses one that is already there. *)
Definition insert_one (d : NoteDoc.t) : Py ObjectId :=
  let* _ := log (EvInsertOne d) in
  match store_fault env OpInsertOne with
  | Some e => raise e
  | None =>
      λ w,
        let oid := new_object_id env in
        if bool_decide (oid ∈ stored_id <$> collection w) then
          (w, inl (Exn StoreErrorC "E11000 duplicate key error"))
        else
          ({| collection := collection w ++ [{| stored_id := oid; stored_doc := d |}];
              trace := trace w |}, inr oid)
  end.

(** [collection.find_one(f)] *)
Definition find_one (f : Mongo.query_filter) : Py (option doc) :=
  let* _ := log (EvFindOne f) in
  match store_fault env OpFindOne with
  | Some e => raise e
  | None =>
      λ w, (w, inr (head (filter (λ d, Is_true (Mongo.matches f d))
                                 (Mongo.to_document <$> collection w))))
  end.

(** [cursor.to_list(length=length)]: a negative length is refused before
    anything is sent; otherwise the command runs and at most [length] of
    its documents are returned. *)
Definition to_list (run : Py (list doc)) (length : Z) : Py (list doc) :=
  if (length <? 0)%Z then raise (Exn ValueErrorC "length must be non-negative")
  else
    let* docs := run in
    ret (take (Z.to_nat length) docs).

(** The command behind a [find] cursor.  The driver encodes the command
    before it sends it, the limit as its absolute value, and the encoder
    refuses an integer beyond 8 bytes: nothing is sent then. *)
Definition run_find (c : Mongo.FindCursor) : Py (list doc) :=
  if (Bson.int64_max <? Z.abs (Mongo.find_limit c))%Z then
    raise (Exn OverflowErrorC "MongoDB can only handle up to 8-byte ints")
  else
    let* _ := log (EvFind c) in
    match store_fault env OpFind with
    | Some e => raise e
    | None => λ w, (w, inr (Mongo.eval_find c (collection w)))
    end.

(** The command behind an [aggregate] cursor. *)
Definition run_aggregate (pipeline : list Mongo.stage) : Py (list doc) :=
  let* _ := log (EvAggregate pipeline) in
  match store_fault env OpAggregate with
  | Some e => raise e
  | None => λ w, (w, Mongo.eval_aggregate (similarity env) pipeline (collection w))
  end.

End Driver.

(** [note["_id"] = str(note["_id"])], on the identifiers and strings a
    document can hold there. *)
Definition stringify_id (d : doc) : exn + doc :=
  match d !! "_id" with
  | Some (VOid o) => inr (<["_id" := VStr (Bson.ObjectId_str o)]> d)
  | Some (VStr s) => inr (<["_id" := VStr s]> d)
  | Some _ => inl (Exn ExceptionC "str: value outside the model")
  | None => inl (Exn ExceptionC "KeyError: '_id'")
  end.

(** ** [app/models/schemas.py] *)

Module Schemas.

(** A string field with its [Field] constraints: required, [min_length]
    and [max_length] on the value as received. *)
Definition str_field (name : string) (min_length : Z) (max_length : option Z)
    (raw : option string) : exn + string :=
  match raw with
  | None => inl (Exn ValueErrorC (name ++ ": Field required"))
  | Some v =>
      if (PyStr.len v <? min_length)%Z then
        inl (Exn ValueErrorC (name ++ ": String should have at least "
                                ++ pretty min_length ++ " character"))
      else
        match max_length with
        | Some m =>
            if (m <? PyStr.len v)%Z then
              inl (Exn ValueErrorC (name ++ ": String should have at most "
                                      ++ pretty m ++ " characters"))
            else inr v
        | None => inr v
        end
  end.

(** A field validator runs on the value that passed the constraints. *)
Definition and_then {A B} (r : exn + A) (f : A → exn + B) : exn + B :=
  match r with
  | inl e => inl e
  | inr a => f a
  end.

(** The messages of the fields that failed, in the order of the fields. *)
Definition errors_of {A} (r : exn + A) : list string :=
  match r with
  | inl e => [py_str e]
  | inr _ => []
  end.

Definition validation_error (msgs : list string) : exn :=
  Exn ValidationErrorC (PyStr.join PyStr.nl msgs).

Module NoteCreate.

Record t := {
  title : string;
  content : string;
  user_id : string;
  tags : list string
}.

(** The JSON body of the request, a field being absent or a string. *)
Record body := {
  body_title : option string;
  body_content : option string;
  body_user_id : option string;
  body_tags : option (list string)
}.

Definition validate_content (v : string) : exn + string :=
  if negb (PyStr.truthy v) || negb (PyStr.truthy (PyStr.strip v)) then
    inl (Exn ValueErrorC "Content cannot be empty")
  else inr (PyStr.strip v).

Definition validate_title (v : string) : exn + string :=
  if negb (PyStr.truthy v) || negb (PyStr.truthy (PyStr.strip v)) then
    inl (Exn ValueErrorC "Title cannot be empty")
  else inr (PyStr.strip v).

(** The model built from the body, field by field; all failures are
    reported together. *)
Definition validate (b : body) : exn + t :=
  let r_title := and_then (str_field "title" 1 (Some 500) (body_title b)) validate_title in
  let r_content := and_then (str_field "content" 1 None (body_content b)) validate_content in
  let r_user_id := str_field "user_id" 1 None (body_user_id b) in
  let v_tags := default [] (body_tags b) in
  match r_title, r_content, r_user_id with
  | inr v_title, inr v_content, inr v_user_id =>
      inr {| title := v_title; content := v_content; user_id := v_user_id; tags := v_tags |}
  | _, _, _ =>
      inl (validation_error (errors_of r_title ++ errors_of r_content ++ errors_of r_user_id))
  end.

End NoteCreate.

Module NoteResponse.

Record t := {
  id : string;
  title : string;
  content : string;
  user_id : string;
  tags : list string;
  created_at : datetime;
  updated_at : datetime
}.

Definition get_str (name : string) (d : doc) : exn + string :=
  match d !! name with
  | Some (VStr s) => inr s
  | Some _ => inl (Exn ValueErrorC (name ++ ": Input should be a valid string"))
  | None => inl (Exn ValueErrorC (name ++ ": Field required"))
  end.

Definition get_tags (name : string) (d : doc) : exn + list string :=
  match d !! name with
  | Some (VList l) => inr l
  | Some _ => inl (Exn ValueErrorC (name ++ ": Input should be a valid list"))
  | None => inl (Exn ValueErrorC (name ++ ": Field required"))
  end.

Definition get_datetime (name : string) (d : doc) : exn + datetime :=
  match d !! name with
  | Some (VDate t) => inr t
  | Some _ => inl (Exn ValueErrorC (name ++ ": Input should be a valid datetime"))
  | None => inl (Exn ValueErrorC (name ++ ": Field required"))
  end.

(** The field [id] is read under its alias [_id], or under its own name
    ([populate_by_name]). *)
Definition get_id (d : doc) : exn + string :=
  match d !! "_id" with
  | Some _ => get_str "_id" d
  | None => get_str "id" d
  end.

(** The model built from the dict [d] given as keyword arguments; the keys
    that are no field of the model are ignored. *)
Definition validate (d : doc) : exn + t :=
  match get_id d, get_str "title" d, get_str "content" d, get_str "user_id" d,
        get_tags "tags" d, get_datetime "created_at" d, get_datetime "updated_at" d with
  | inr v_id, inr v_title, inr v_content, inr v_user_id, inr v_tags, inr v_created, inr v_updated =>
      inr {| id := v_id; title := v_title; content := v_content; user_id := v_user_id;
             tags := v_tags; created_at := v_created; updated_at := v_updated |}
  | r1, r2, r3, r4, r5, r6, r7 =>
      inl (validation_error (errors_of r1 ++ errors_of r2 ++ errors_of r3 ++ errors_of r4
                               ++ errors_of r5 ++ errors_of r6 ++ errors_of r7))
  end.

End NoteResponse.

Module SearchQuery.

Record t := {
  query : string;
  user_id : string;
  limit : Z
}.

Record body := {
  body_query : option string;
  body_user_id : option string;
  body_limit : option Z
}.

Definition validate_query (v : string) : exn + string :=
  if negb (PyStr.truthy v) || negb (PyStr.truthy (PyStr.strip v)) then
    inl (Exn ValueErrorC "Query cannot be empty")
  else inr (PyStr.strip v).

(** [limit: int = Field(default=10, ge=1, le=50)] *)
Definition limit_field (raw : option Z) : exn + Z :=
  match raw with
  | None => inr 10%Z
  | Some n =>
      if (n <? 1)%Z then
        inl (Exn ValueErrorC "limit: Input should be greater than or equal to 1")
      else if (50 <? n)%Z then
        inl (Exn ValueErrorC "limit: Input should be less than or equal to 50")
      else inr n
  end.

(** The model built from the body. *)
Definition validate (b : body) : exn + t :=
  let r_query := and_then (str_field "query" 1 None (body_query b)) validate_query in
  let r_user_id := str_field "user_id" 1 None (body_user_id b) in
  let r_limit := limit_field (body_limit b) in
  match r_query, r_user_id, r_limit with
  | inr v_query, inr v_user_id, inr v_limit =>
      inr {| query := v_query; user_id := v_user_id; limit := v_limit |}
  | _, _, _ =>
      inl (validation_error (errors_of r_query ++ errors_of r_user_id ++ errors_of r_limit))
  end.

End SearchQuery.

Module SearchResult.

Record t := {
  note : NoteResponse.t;
  score : float
}.

(** [SearchResult(note=n, score=v)] with [v] a value taken from a dict. *)
Definition validate (n : NoteResponse.t) (v : value) : exn + t :=
  match v with
  | VFloat x => inr {| note := n; score := x |}
  | _ => inl (validation_error ["score: Input should be a valid number"])
  end.

End SearchResult.

Module SearchResponse.

Record t := {
  results : list SearchResult.t;
  query : string;
  count : Z;
  search_time_ms : float
}.

End SearchResponse.

End Schemas.

(** ** [app/services/gemini_service.py] *)

Module GeminiService.
Section WithSettings.
Variable settings : Settings.
Variable env : Env.

Definition dimension_message (got : Z) : string :=
  "Expected " ++ pretty (gemini_embedding_dimensions settings) ++ " dimensions, "
  ++ "got " ++ pretty got.

Definition generate_embedding (text : string) : Py (list float) :=
  try_except
    (let* embedding :=
       genai_embed_content env
         {| model := gemini_embedding_model settings;
            content := text;
            task_type := "retrieval_document";
            title := None |} in
     if negb (Z.of_nat (length embedding) =? gemini_embedding_dimensions settings)%Z then
       raise (Exn ValueErrorC (dimension_message (Z.of_nat (length embedding))))
     else ret embedding)
    (λ e, raise (Exn ExceptionC ("Failed to generate embedding: " ++ py_str e))).

Definition generate_note_embedding (title content : string) (tags : list string)
    : Py (list float) :=
  let combined_text := title ++ PyStr.nl ++ PyStr.nl ++ content in
  let combined_text :=
    match tags with
    | [] => combined_text
    | _ =>
        let tags_text := PyStr.join ", " tags in
        combined_text ++ (PyStr.nl ++ PyStr.nl ++ "Tags: " ++ tags_text)
    end in
  generate_embedding combined_text.

Definition generate_query_embedding (query : string) : Py (list float) :=
  try_except
    (let* embedding :=
       genai_embed_content env
         {| model := gemini_embedding_model settings;
            content := query;
            task_type := "retrieval_query";
            title := None |} in
     if negb (Z.of_nat (length embedding) =? gemini_embedding_dimensions settings)%Z then
       raise (Exn ValueErrorC (dimension_message (Z.of_nat (length embedding))))
     else ret embedding)
    (λ e, raise (Exn ExceptionC ("Failed to generate query embedding: " ++ py_str e))).

End WithSettings.
End GeminiService.

(** ** [app/services/mongodb_service.py] *)

Module MongoDBService.
Section WithSettings.
Variable settings : Settings.
Variable env : Env.

Definition create_note (title content user_id : string) (tags : list string)
    (embedding : list float) : Py string :=
  let now := utcnow env in
  let note_doc :=
    {| NoteDoc.title := title;
       NoteDoc.content := content;
       NoteDoc.user_id := user_id;
       NoteDoc.tags := tags;
       NoteDoc.embedding := embedding;
       NoteDoc.created_at := now;
       NoteDoc.updated_at := now |} in
  let* inserted_id := insert_one env note_doc in
  ret (Bson.ObjectId_str inserted_id).

Definition get_note (note_id : string) : Py (option doc) :=
  try_except
    (let* oid := lift (Bson.ObjectId_of_str note_id) in
     let* note := find_one env (Mongo.FieldEq "_id" (VOid oid)) in
     match note with
     | Some d =>
         if bool_decide (d ≠ ∅) then
           let* d' := lift (stringify_id d) in
           ret (Some d')
         else ret (Some d)
     | None => ret None
     end)
    (λ e, ret None).

(** The pipeline [vector_search] builds. *)
Definition vector_search_pipeline (query_embedding : list float) (user_id : string)
    (limit : Z) : list Mongo.stage :=
  [ Mongo.VectorSearch
      {| Mongo.index := mongodb_vector_index_name settings;
         Mongo.path := "embedding";
         Mongo.queryVector := query_embedding;
         Mongo.numCandidates := vector_search_num_candidates settings;
         Mongo.limit := limit;
         Mongo.filter_ := Some (Mongo.FieldEq "user_id" (VStr user_id)) |};
    Mongo.Project
      [ ("_id", Mongo.Include);
        ("title", Mongo.Include);
        ("content", Mongo.Include);
        ("user_id", Mongo.Include);
        ("tags", Mongo.Include);
        ("created_at", Mongo.Include);
        ("updated_at", Mongo.Include);
        ("score", Mongo.MetaVectorSearchScore) ] ].

Definition vector_search (query_embedding : list float) (user_id : string) (limit : Z)
    : Py (list doc) :=
  try_except
    (let pipeline := vector_search_pipeline query_embedding user_id limit in
     let* results := to_list (run_aggregate env pipeline) limit in
     let* results := lift (for_each stringify_id results) in
     ret results)
    (λ e, raise (Exn ExceptionC ("Vector search failed: " ++ py_str e))).

Definition list_notes (user_id : string) (limit : Z) : Py (list doc) :=
  let cursor :=
    {| Mongo.find_filter := Mongo.FieldEq "user_id" (VStr user_id);
       Mongo.find_exclude := ["embedding"];
       Mongo.find_sort := ("updated_at", Mongo.DESCENDING);
       Mongo.find_limit := limit |} in
  let* notes := to_list (run_find env cursor) limit in
  let* notes := lift (for_each stringify_id notes) in
  ret notes.

End WithSettings.
End MongoDBService.

(** ** [app/routes/notes.py] *)

Module Routes.
Import Schemas.
Section WithSettings.
Variable settings : Settings.
Variable env : Env.

(** [not created_note], for a dict or None. *)
Definition falsy (o : option doc) : bool :=
  match o with
  | None => true
  | Some d => bool_decide (d = ∅)
  end.

Definition create_note (note : NoteCreate.t) : Py NoteResponse.t :=
  try_except
    (let* embedding :=
       GeminiService.generate_note_embedding settings env
         (NoteCreate.title note) (NoteCreate.content note) (NoteCreate.tags note) in
     let* note_id :=
       MongoDBService.create_note env
         (NoteCreate.title note) (NoteCreate.content note) (NoteCreate.user_id note)
         (NoteCreate.tags note) embedding in
     let* created_note := MongoDBService.get_note env note_id in
     if falsy created_note then
       raise (HTTPException 500 "Failed to retrieve created note")
     else lift (NoteResponse.validate (default ∅ created_note)))
    (λ e,
       if is_ValueError e then raise (HTTPException 422 (py_str e))
       else raise (HTTPException 500 ("Failed to create note: " ++ py_str e))).

(** One element of the list comprehension of [search_notes]. *)
Definition format_result (result : doc) : exn + SearchResult.t :=
  match NoteResponse.validate result with
  | inl e => inl e
  | inr n => SearchResult.validate n (default (VFloat 0%Q) (result !! "score"))
  end.

Definition search_notes (query : SearchQuery.t) : Py SearchResponse.t :=
  let start_time := time_start env in
  try_except
    (let* query_embedding :=
       GeminiService.generate_query_embedding settings env (SearchQuery.query query) in
     let* results :=
       MongoDBService.vector_search settings env query_embedding
         (SearchQuery.user_id query) (SearchQuery.limit query) in
     let* search_results := lift (for_each format_result results) in
     let search_time_ms := ((time_end env - start_time) * 1000)%Q in
     ret {| SearchResponse.results := search_results;
            SearchResponse.query := SearchQuery.query query;
            SearchResponse.count := Z.of_nat (length search_results);
            SearchResponse.search_time_ms := search_time_ms |})
    (λ e,
       if is_ValueError e then raise (HTTPException 422 (py_str e))
       else raise (HTTPException 500 ("Search failed: " ++ py_str e))).

Definition list_user_notes (user_id : string) (limit : Z) : Py (list NoteResponse.t) :=
  try_except
    (let* notes := MongoDBService.list_notes env user_id limit in
     lift (for_each NoteResponse.validate notes))
    (λ e, raise (HTTPException 500 ("Failed to list notes: " ++ py_str e))).

(** The framework in front of the routes: the body is validated into the
    model, and a body that fails never reaches the route. *)
Definition request_validation {A} (r : exn + A) : Py A :=
  match r with
  | inl e => raise (Exn RequestValidationC (py_str e))
  | inr a => ret a
  end.

(** [POST /api/notes] *)
Definition post_notes (b : NoteCreate.body) : Py NoteResponse.t :=
  let* note := request_validation (NoteCreate.validate b) in
  create_note note.

(** [POST /api/search] *)
Definition post_search (b : SearchQuery.body) : Py SearchResponse.t :=
  let* query := request_validation (SearchQuery.validate b) in
  search_notes query.

(** [GET /api/notes/{user_id}], the limit defaulting to 100. *)
Definition get_notes (user_id : string) (limit : option Z) : Py (list NoteResponse.t) :=
  list_user_notes user_id (default 100%Z limit).

End WithSettings.
End Routes.

(** ** Requests over time *)

Inductive request :=
  | CreateNote (b : Schemas.NoteCreate.body)
  | Search (b : Schemas.SearchQuery.body)
  | ListNotes (user_id : string) (limit : option Z).

(** The world after one request, served under [env]. *)
Definition serve (settings : Settings) (er : Env * request) (w : World) : World :=
  match er.2 with
  | CreateNote b => (Routes.post_notes settings er.1 b w).1
  | Search b => (Routes.post_search settings er.1 b w).1
  | ListNotes user_id limit => (Routes.get_notes er.1 user_id limit w).1
  end.

Definition serve_all (settings : Settings) (ers : list (Env * request)) (w : World) : World :=
  foldl (λ w er, serve settings er w) w ers.

Definition empty_world : World := {| collection := []; trace := [] |}.

(** ** Vocabulary of the statements *)

(** The provider calls of a trace, in order. *)
Definition embed_calls (tr : list event) : list EmbedCall :=
  omap (λ ev, match ev with EvEmbedContent c => Some c | _ => None end) tr.

(** The documents written by a trace, in order. *)
Definition inserts (tr : list event) : list NoteDoc.t :=
  omap (λ ev, match ev with EvInsertOne d => Some d | _ => None end) tr.

(** The vector searches of a trace, in order. *)
Definition searches (tr : list event) : list Mongo.VectorSearchSpec :=
  omap (λ ev, match ev with
              | EvAggregate (Mongo.VectorSearch spec :: _) => Some spec
              | _ => None
              end) tr.

(** The outcome of an embedding request: the provider's error under the
    function's prefix, a vector of the configured length, or the mismatch
    under the same prefix. *)
Definition checked (settings : Settings) (prefix : string) (r : exn + list float)
    : exn + list float :=
  match r with
  | inl e => inl (Exn ExceptionC (prefix ++ py_str e))
  | inr embedding =>
      if (Z.of_nat (length embedding) =? gemini_embedding_dimensions settings)%Z then
        inr embedding
      else
        inl (Exn ExceptionC
               (prefix ++ GeminiService.dimension_message settings
                            (Z.of_nat (length embedding))))
  end.

(** The text embedded for a note, in the words of the specification: title,
    a blank line, content and, for a non-empty list of tags only, a blank
    line and the line of tags. *)
Definition spec_note_text (title content : string) (tags : list string) : string :=
  title ++ PyStr.nl ++ PyStr.nl ++ content
  ++ match tags with
     | [] => ""
     | _ => PyStr.nl ++ PyStr.nl ++ "Tags: " ++ PyStr.join ", " tags
     end.

Definition document_call (settings : Settings) (text : string) : EmbedCall :=
  {| model := gemini_embedding_model settings; content := text;
     task_type := "retrieval_document"; title := None |}.

Definition query_call (settings : Settings) (text : string) : EmbedCall :=
  {| model := gemini_embedding_model settings; content := text;
     task_type := "retrieval_query"; title := None |}.

(** The first document of the collection under the identifier [oid]. *)
Definition find_by_id (oid : ObjectId) (w : World) : option doc :=
  head (filter (λ d, Is_true (Mongo.matches (Mongo.FieldEq "_id" (VOid oid)) d))
               (Mongo.to_document <$> collection w)).

(** The document [MongoDBService.create_note] writes. *)
Definition new_note_doc (env : Env) (title content user_id : string) (tags : list string)
    (embedding : list float) : NoteDoc.t :=
  {| NoteDoc.title := title;
     NoteDoc.content := content;
     NoteDoc.user_id := user_id;
     NoteDoc.tags := tags;
     NoteDoc.embedding := embedding;
     NoteDoc.created_at := utcnow env;
     NoteDoc.updated_at := utcnow env |}.

(** The provider call of an ingestion. *)
Definition ingest_call (settings : Settings) (note : Schemas.NoteCreate.t) : EmbedCall :=
  document_call settings
    (spec_note_text (Schemas.NoteCreate.title note) (Schemas.NoteCreate.content note)
       (Schemas.NoteCreate.tags note)).

(** The fields [$project] keeps in [vector_search]. *)
Definition search_projection : list (string * Mongo.project_field) :=
  [ ("_id", Mongo.Include);
    ("title", Mongo.Include);
    ("content", Mongo.Include);
    ("user_id", Mongo.Include);
    ("tags", Mongo.Include);
    ("created_at", Mongo.Include);
    ("updated_at", Mongo.Include);
    ("score", Mongo.MetaVectorSearchScore) ].

(** The note as the responses show it. *)
Definition response_of (n : StoredNote) : Schemas.NoteResponse.t :=
  {| Schemas.NoteResponse.id := Bson.ObjectId_str (stored_id n);
     Schemas.NoteResponse.title := NoteDoc.title (stored_doc n);
     Schemas.NoteResponse.content := NoteDoc.content (stored_doc n);
     Schemas.NoteResponse.user_id := NoteDoc.user_id (stored_doc n);
     Schemas.NoteResponse.tags := NoteDoc.tags (stored_doc n);
     Schemas.NoteResponse.created_at := NoteDoc.created_at (stored_doc n);
     Schemas.NoteResponse.updated_at := NoteDoc.updated_at (stored_doc n) |}.

(** The notes of one user, in the order of the collection. *)
Definition notes_of (user_id : string) (coll : list StoredNote) : list StoredNote :=
  filter (λ n, NoteDoc.user_id (stored_doc n) = user_id) coll.

(** A note with its similarity to the query vector [q]. *)
Definition scored_note (sim : list float → list float → float) (q : list float)
    (n : StoredNote) : Mongo.scored :=
  (Mongo.to_document n, sim q (NoteDoc.embedding (stored_doc n))).

(** The notes of one user, nearest to [q] first. *)
Definition ranked (sim : list float → list float → float) (q : list float)
    (user_id : string) (coll : list StoredNote) : list Mongo.scored :=
  merge_sort Mongo.score_rel (scored_note sim q <$> notes_of user_id coll).

(** A note as [vector_search] returns it: without its embedding, with its
    score, its identifier as a string. *)
Definition hit_doc (n : StoredNote) (s : float) : doc :=
  <["_id" := VStr (Bson.ObjectId_str (stored_id n))]>
    (<["score" := VFloat s]> (delete "embedding" (Mongo.to_document n))).

(** A note as [list_notes] returns it. *)
Definition listed_doc (n : StoredNote) : doc :=
  <["_id" := VStr (Bson.ObjectId_str (stored_id n))]>
    (delete "embedding" (Mongo.to_document n)).

(** A note as [get_note] returns it. *)
Definition fetched_doc (n : StoredNote) : doc :=
  <["_id" := VStr (Bson.ObjectId_str (stored_id n))]> (Mongo.to_document n).

(** A note as the store answers it to the pipeline of [vector_search]:
    without its embedding, with its score, its identifier not yet a
    string. *)
Definition answered_doc (n : StoredNote) (s : float) : doc :=
  <["score" := VFloat s]> (delete "embedding" (Mongo.to_document n)).

(** The result [r] of a search shows the document [d] of the store: the
    identifier of [d] as a string, its title, content, user, tags and
    times, and its score. *)
Definition result_shows (d : doc) (r : Schemas.SearchResult.t) : Prop :=
  let n := Schemas.SearchResult.note r in
  (∃ oid, d !! "_id" = Some (VOid oid) ∧
          Schemas.NoteResponse.id n = Bson.ObjectId_str oid) ∧
  d !! "title" = Some (VStr (Schemas.NoteResponse.title n)) ∧
  d !! "content" = Some (VStr (Schemas.NoteResponse.content n)) ∧
  d !! "user_id" = Some (VStr (Schemas.NoteResponse.user_id n)) ∧
  d !! "tags" = Some (VList (Schemas.NoteResponse.tags n)) ∧
  d !! "created_at" = Some (VDate (Schemas.NoteResponse.created_at n)) ∧
  d !! "updated_at" = Some (VDate (Schemas.NoteResponse.updated_at n)) ∧
  d !! "score" = Some (VFloat (Schemas.SearchResult.score r)).

(** The record [d] of a listing shows the note [n]: its identifier as a
    string, its title, content, user, tags and times, and no embedding. *)
Definition record_shows (d : doc) (n : StoredNote) : Prop :=
  d !! "_id" = Some (VStr (Bson.ObjectId_str (stored_id n))) ∧
  d !! "title" = Some (VStr (NoteDoc.title (stored_doc n))) ∧
  d !! "content" = Some (VStr (NoteDoc.content (stored_doc n))) ∧
  d !! "user_id" = Some (VStr (NoteDoc.user_id (stored_doc n))) ∧
  d !! "tags" = Some (VList (NoteDoc.tags (stored_doc n))) ∧
  d !! "created_at" = Some (VDate (NoteDoc.created_at (stored_doc n))) ∧
  d !! "updated_at" = Some (VDate (NoteDoc.updated_at (stored_doc n))) ∧
  d !! "embedding" = None.

(** The pipeline the code does not build: the same search without its
    filter, followed by a [$match] on the user. *)
Definition post_filter_pipeline (settings : Settings) (query_embedding : list float)
    (user_id : string) (limit : Z) : list Mongo.stage :=
  [ Mongo.VectorSearch
      {| Mongo.index := mongodb_vector_index_name settings;
         Mongo.path := "embedding";
         Mongo.queryVector := query_embedding;
         Mongo.numCandidates := vector_search_num_candidates settings;
         Mongo.limit := limit;
         Mongo.filter_ := None |};
    Mongo.Match (Mongo.FieldEq "user_id" (VStr user_id));
    Mongo.Project search_projection ].

(** ** A small deployment, for the examples *)

Module Example.

(** The similarity of the example index: the dot product. *)
Fixpoint dot (u v : list float) : float :=
  match u, v with
  | x :: u', y :: v' => (x * y + dot u' v')%Q
  | _, _ => 0%Q
  end.

(** Three dimensions instead of 768, to keep the vectors short. *)
Definition settings3 : Settings := {|
  gemini_embedding_model := "models/text-embedding-004";
  gemini_embedding_dimensions := 3;
  mongodb_vector_index_name := "vector_index";
  vector_search_limit := 10;
  vector_search_num_candidates := 100
|}.

Definition oid (b : ascii) : ObjectId := replicate 12 b.

Definition kyoto : StoredNote := {|
  stored_id := oid "1";
  stored_doc := {|
    NoteDoc.title := "Trip to Kyoto";
    NoteDoc.content := "Visited temples and gardens.";
    NoteDoc.user_id := "u1";
    NoteDoc.tags := ["travel"];
    NoteDoc.embedding := [1 # 2; 1 # 2; 0]%Q;
    NoteDoc.created_at := 1000;
    NoteDoc.updated_at := 1000 |} |}.

(** A note of another user, nearer to the query than any note of [u1]. *)
Definition nara : StoredNote := {|
  stored_id := oid "2";
  stored_doc := {|
    NoteDoc.title := "Temples in Japan";
    NoteDoc.content := "Temples of Nara.";
    NoteDoc.user_id := "u2";
    NoteDoc.tags := [];
    NoteDoc.embedding := [1; 0; 0]%Q;
    NoteDoc.created_at := 2000;
    NoteDoc.updated_at := 2000 |} |}.

Definition groceries : StoredNote := {|
  stored_id := oid "3";
  stored_doc := {|
    NoteDoc.title := "Groceries";
    NoteDoc.content := "Rice, tea.";
    NoteDoc.user_id := "u1";
    NoteDoc.tags := ["home"; "food"];
    NoteDoc.embedding := [0; 1; 0]%Q;
    NoteDoc.created_at := 3000;
    NoteDoc.updated_at := 3000 |} |}.

Definition world : World := {| collection := [kyoto; nara; groceries]; trace := [] |}.

(** The provider of the example: the query about temples gets one vector,
    every other text another one. *)
Definition provider (c : EmbedCall) : exn + list float :=
  if bool_decide (content c = "temples in Japan") then inr [1; 0; 0]%Q
  else inr [1 # 2; 1 # 2; 0]%Q.

Definition env : Env := {|
  embed_content := provider;
  similarity := dot;
  store_fault := λ _, None;
  utcnow := 4000;
  new_object_id := oid "4";
  time_start := 10%Q;
  time_end := (21 # 2)%Q
|}.

(** The same, with a store that does not answer. *)
Definition env_store_down : Env := {|
  embed_content := provider;
  similarity := dot;
  store_fault := λ _, Some (Exn StoreErrorC "connection refused");
  utcnow := 4000;
  new_object_id := oid "4";
  time_start := 10%Q;
  time_end := (21 # 2)%Q
|}.

(** The same, with a provider that does not answer. *)
Definition env_provider_down : Env := {|
  embed_content := λ _, inl (Exn ProviderErrorC "quota exceeded");
  similarity := dot;
  store_fault := λ _, None;
  utcnow := 4000;
  new_object_id := oid "4";
  time_start := 10%Q;
  time_end := (21 # 2)%Q
|}.

Definition osaka : Schemas.NoteCreate.t := {|
  Schemas.NoteCreate.title := "Osaka";
  Schemas.NoteCreate.content := "Street food.";
  Schemas.NoteCreate.user_id := "u1";
  Schemas.NoteCreate.tags := ["travel"; "food"]
|}.

Definition osaka_body : Schemas.NoteCreate.body := {|
  Schemas.NoteCreate.body_title := Some "  Osaka ";
  Schemas.NoteCreate.body_content := Some "Street food.";
  Schemas.NoteCreate.body_user_id := Some "u1";
  Schemas.NoteCreate.body_tags := Some ["travel"; "food"]
|}.

Definition blank_body : Schemas.NoteCreate.body := {|
  Schemas.NoteCreate.body_title := Some "   ";
  Schemas.NoteCreate.body_content := Some "Street food.";
  Schemas.NoteCreate.body_user_id := Some "u1";
  Schemas.NoteCreate.body_tags := None
|}.

Definition temples (user_id : string) (limit : Z) : Schemas.SearchQuery.t := {|
  Schemas.SearchQuery.query := "temples in Japan";
  Schemas.SearchQuery.user_id := user_id;
  Schemas.SearchQuery.limit := limit
|}.

Definition temples_body (user_id : string) (limit : option Z) : Schemas.SearchQuery.body := {|
  Schemas.SearchQuery.body_query := Some "temples in Japan";
  Schemas.SearchQuery.body_user_id := Some user_id;
  Schemas.SearchQuery.body_limit := limit
|}.

End Example.

(** * Properties *)

Import Schemas.

(** ** Facts on Python strings *)

Lemma lstrip_all_space s : PyStr.all_space s = true → PyStr.lstrip s = "".
Proof.
  induction s as [|c s IH]; simpl; [done|].
  intros [Hc Hs]%andb_true_iff. rewrite Hc. auto.
Qed.

Lemma rstrip_all_space s : PyStr.all_space s = true → PyStr.rstrip s = "".
Proof.
  induction s as [|c s IH]; simpl; [done|].
  intros [Hc Hs]%andb_true_iff. rewrite (IH Hs), Hc. done.
Qed.

Lemma rstrip_empty s : PyStr.rstrip s = "" → PyStr.all_space s = true.
Proof.
  induction s as [|c s IH]; simpl; [done|].
  destruct (PyStr.rstrip s) eqn:Hr; [|done].
  destruct (PyStr.isspace c) eqn:Hc; [|done].
  intros _. by rewrite IH.
Qed.

Lemma lstrip_rstrip_empty s :
  PyStr.rstrip (PyStr.lstrip s) = "" → PyStr.all_space s = true.
Proof.
  induction s as [|c s IH]; simpl; [done|].
  destruct (PyStr.isspace c) eqn:Hc; simpl.
  - auto.
  - destruct (PyStr.rstrip s); rewrite ?Hc; done.
Qed.

Lemma strip_empty_iff s : PyStr.strip s = "" ↔ PyStr.all_space s = true.
Proof.
  unfold PyStr.strip. split.
  - apply lstrip_rstrip_empty.
  - intros H. by rewrite (lstrip_all_space s H).
Qed.

Lemma truthy_false_iff s : PyStr.truthy s = false ↔ s = "".
Proof. destruct s; simpl; split; congruence. Qed.

(** ** Facts on identifiers *)

Lemma hex_byte_roundtrip (b : ascii) :
  let n := nat_of_ascii b in
  Bson.ascii_space (Bson.hex_digit (n / 16)) = false ∧
  Bson.unhex_digit (Bson.hex_digit (n / 16)) = Some (n / 16)%nat ∧
  Bson.unhex_digit (Bson.hex_digit (n mod 16)) = Some (n mod 16)%nat ∧
  ascii_of_nat (16 * (n / 16) + n mod 16) = b.
Proof. destruct b as [[] [] [] [] [] [] [] []]; vm_compute; done. Qed.

Lemma fromhex_hexlify bs : Bson.fromhex (Bson.hexlify bs) = Some bs.
Proof.
  induction bs as [|b bs IH]; [done|].
  destruct (hex_byte_roundtrip b) as (Hs & Hh & Hl & Hb).
  cbn [Bson.hexlify Bson.fromhex]. cbv zeta in *.
  rewrite Hs, Hh, Hl, IH, Hb. done.
Qed.

Lemma length_hexlify bs : String.length (Bson.hexlify bs) = (2 * length bs)%nat.
Proof. induction bs as [|b bs IH]; simpl; [done|]. rewrite IH. lia. Qed.

Lemma ObjectId_of_str_str o :
  length o = 12%nat → Bson.ObjectId_of_str (Bson.ObjectId_str o) = inr o.
Proof.
  intros Hl. unfold Bson.ObjectId_of_str, Bson.ObjectId_str.
  rewrite length_hexlify, Hl, fromhex_hexlify. done.
Qed.

(** ** The services, one call at a time *)

Ltac run_py :=
  unfold try_except, bind, lift, ret, raise, log, genai_embed_content in *; simpl in *.

Lemma string_app_assoc (a b c : string) : (a ++ b) ++ c = a ++ b ++ c.
Proof.
  induction a as [|x a IH]; [done|].
  change (String x ((a ++ b) ++ c) = String x (a ++ b ++ c)). by rewrite IH.
Qed.

Lemma string_app_nil_r (a : string) : a ++ "" = a.
Proof.
  induction a as [|x a IH]; [done|].
  change (String x (a ++ "") = String x a). by rewrite IH.
Qed.

Lemma generate_note_embedding_spec settings env title content tags w :
  GeminiService.generate_note_embedding settings env title content tags w =
  GeminiService.generate_embedding settings env (spec_note_text title content tags) w.
Proof.
  unfold GeminiService.generate_note_embedding, spec_note_text.
  destruct tags as [|t tags]; cbv zeta.
  - by rewrite string_app_nil_r.
  - by rewrite !string_app_assoc.
Qed.

Lemma generate_embedding_spec settings env text w :
  GeminiService.generate_embedding settings env text w =
  (logged (EvEmbedContent (document_call settings text)) w,
   checked settings "Failed to generate embedding: "
     (embed_content env (document_call settings text))).
Proof.
  unfold GeminiService.generate_embedding, checked, document_call. run_py.
  destruct (embed_content env _) as [e|emb]; simpl; [done|].
  destruct (Z.eqb _ _); simpl; done.
Qed.

Lemma generate_query_embedding_spec settings env text w :
  GeminiService.generate_query_embedding settings env text w =
  (logged (EvEmbedContent (query_call settings text)) w,
   checked settings "Failed to generate query embedding: "
     (embed_content env (query_call settings text))).
Proof.
  unfold GeminiService.generate_query_embedding, checked, query_call. run_py.
  destruct (embed_content env _) as [e|emb]; simpl; [done|].
  destruct (Z.eqb _ _); simpl; done.
Qed.


Lemma checked_inr settings prefix r emb :
  checked settings prefix r = inr emb →
  r = inr emb ∧ Z.of_nat (length emb) = gemini_embedding_dimensions settings.
Proof.
  unfold checked. destruct r as [e|v]; [done|].
  destruct (Z.eqb_spec (Z.of_nat (length v)) (gemini_embedding_dimensions settings)); [|done].
  intros [= ->]. done.
Qed.

Lemma get_note_spec env note_id w :
  MongoDBService.get_note env note_id w =
  match Bson.ObjectId_of_str note_id with
  | inl _ => (w, inr None)
  | inr oid =>
      (logged (EvFindOne (Mongo.FieldEq "_id" (VOid oid))) w,
       inr match store_fault env OpFindOne with
           | Some _ => None
           | None =>
               match find_by_id oid w with
               | Some d =>
                   if bool_decide (d ≠ ∅) then
                     match stringify_id d with
                     | inr d' => Some d'
                     | inl _ => None
                     end
                   else Some d
               | None => None
               end
           end)
  end.
Proof.
  unfold MongoDBService.get_note, find_one, find_by_id. run_py.
  destruct (Bson.ObjectId_of_str note_id) as [e|oid]; simpl; [done|].
  destruct (store_fault env OpFindOne); simpl; [done|].
  destruct (head _) as [d|]; simpl; [|done].
  case_bool_decide; simpl; [|done].
  destruct (stringify_id d); done.
Qed.

Lemma checked_inl settings prefix r e :
  checked settings prefix r = inl e → ∃ msg, e = Exn ExceptionC msg.
Proof.
  unfold checked. destruct r as [e'|v]; [|destruct (Z.eqb _ _)]; intros; simplify_eq; eauto.
Qed.

Lemma create_note_spec env title content user_id tags embedding w :
  let d := new_note_doc env title content user_id tags embedding in
  MongoDBService.create_note env title content user_id tags embedding w =
  match store_fault env OpInsertOne with
  | Some e => (logged (EvInsertOne d) w, inl e)
  | None =>
      if bool_decide (new_object_id env ∈ stored_id <$> collection w) then
        (logged (EvInsertOne d) w, inl (Exn StoreErrorC "E11000 duplicate key error"))
      else
        ({| collection := collection w ++ [{| stored_id := new_object_id env; stored_doc := d |}];
            trace := trace w ++ [EvInsertOne d] |},
         inr (Bson.ObjectId_str (new_object_id env)))
  end.
Proof.
  unfold MongoDBService.create_note, insert_one, new_note_doc. run_py.
  destruct (store_fault env OpInsertOne); simpl; [done|].
  case_bool_decide; done.
Qed.

Lemma get_note_world env note_id w :
  ∃ r, MongoDBService.get_note env note_id w = (w, inr r) ∨
       ∃ f, MongoDBService.get_note env note_id w = (logged (EvFindOne f) w, inr r).
Proof.
  rewrite get_note_spec. destruct (Bson.ObjectId_of_str note_id); eauto.
Qed.

Lemma route_create_note_cases settings env note w :
  let c := ingest_call settings note in
  let w1 := logged (EvEmbedContent c) w in
  ∃ w' r, Routes.create_note settings env note w = (w', r) ∧
    match checked settings "Failed to generate embedding: " (embed_content env c) with
    | inl e =>
        w' = w1 ∧ r = inl (HTTPException 500 ("Failed to create note: " ++ py_str e))
    | inr emb =>
        let d := new_note_doc env (NoteCreate.title note) (NoteCreate.content note)
                   (NoteCreate.user_id note) (NoteCreate.tags note) emb in
        ∃ tail, trace w' = (trace w1 ++ EvInsertOne d :: tail)%list ∧
          embed_calls tail = [] ∧ inserts tail = [] ∧ searches tail = [] ∧
          (collection w' = collection w ∨
           collection w' = (collection w ++ [{| stored_id := new_object_id env; stored_doc := d |}])%list)
    end.
Proof.
  cbv zeta. unfold Routes.create_note, try_except, bind, ingest_call.
  rewrite generate_note_embedding_spec, generate_embedding_spec.
  set (c := document_call settings _). set (w1 := logged (EvEmbedContent c) w).
  destruct (checked settings _ (embed_content env c)) as [e|emb] eqn:Hc.
  { destruct (checked_inl _ _ _ _ Hc) as [msg ->]. simpl. unfold raise. eauto. }
  rewrite create_note_spec.
  destruct (store_fault env OpInsertOne) as [e|].
  { exists (logged (EvInsertOne (new_note_doc env (NoteCreate.title note)
              (NoteCreate.content note) (NoteCreate.user_id note) (NoteCreate.tags note) emb)) w1).
    destruct (is_ValueError e); unfold raise; eexists; (split; [reflexivity|]);
      exists []; simpl; auto 10. }
  case_bool_decide.
  { simpl. unfold raise. eexists _, _. split; [reflexivity|]. exists []. simpl. auto 10. }
  match goal with |- context [MongoDBService.get_note env ?i ?w] =>
    destruct (get_note_world env i w) as [r [Hg | [f Hg]]]; rewrite Hg end.
  - destruct (Routes.falsy r); unfold lift, raise; simpl;
      [|destruct (NoteResponse.validate _) as [e|]; simpl; [destruct (is_ValueError e)|]];
      (eexists _, _; split; [reflexivity|]; exists []; simpl; auto 10).
  - destruct (Routes.falsy r); unfold lift, raise; simpl;
      [|destruct (NoteResponse.validate _) as [e|]; simpl; [destruct (is_ValueError e)|]];
      (eexists _, _; split; [reflexivity|]; exists [EvFindOne f]; simpl;
       rewrite <- ?app_assoc; auto 10).
Qed.

(** ** The store, one query at a time *)

Lemma to_document_id n : Mongo.to_document n !! "_id" = Some (VOid (stored_id n)).
Proof. done. Qed.

Lemma to_document_user_id n :
  Mongo.to_document n !! "user_id" = Some (VStr (NoteDoc.user_id (stored_doc n))).
Proof. done. Qed.

Lemma to_document_embedding n :
  Mongo.to_document n !! "embedding" = Some (VVec (NoteDoc.embedding (stored_doc n))).
Proof. done. Qed.

Lemma to_document_updated_at n :
  Mongo.to_document n !! "updated_at" = Some (VDate (NoteDoc.updated_at (stored_doc n))).
Proof. done. Qed.

Lemma to_document_nonempty n : Mongo.to_document n ≠ ∅.
Proof. intros H. pose proof (to_document_id n) as Hi. rewrite H in Hi. done. Qed.

Lemma project_to_document n s :
  (Mongo.project_one search_projection (Mongo.to_document n, s)).1 =
  <["score" := VFloat s]> (delete "embedding" (Mongo.to_document n)).
Proof. reflexivity. Qed.

Lemma stringify_projected n s :
  stringify_id (<["score" := VFloat s]> (delete "embedding" (Mongo.to_document n))) =
  inr (hit_doc n s).
Proof. reflexivity. Qed.

Lemma stringify_excluded n :
  stringify_id (Mongo.exclude ["embedding"] (Mongo.to_document n)) = inr (listed_doc n).
Proof. reflexivity. Qed.

Lemma stringify_document n : stringify_id (Mongo.to_document n) = inr (fetched_doc n).
Proof. reflexivity. Qed.

Lemma format_hit n s :
  Routes.format_result (hit_doc n s) =
  inr {| SearchResult.note := response_of n; SearchResult.score := s |}.
Proof. reflexivity. Qed.

Lemma validate_listed n : NoteResponse.validate (listed_doc n) = inr (response_of n).
Proof. reflexivity. Qed.

Lemma validate_fetched n : NoteResponse.validate (fetched_doc n) = inr (response_of n).
Proof. reflexivity. Qed.

Global Arguments Mongo.to_document : simpl never.
Global Arguments hit_doc : simpl never.
Global Arguments listed_doc : simpl never.
Global Arguments fetched_doc : simpl never.

Lemma for_each_Forall2 {A B} (f : A → exn + B) l l' :
  for_each f l = inr l' → Forall2 (λ x y, f x = inr y) l l'.
Proof.
  revert l'. induction l as [|x l IH]; simpl; intros l' H.
  - simplify_eq. constructor.
  - destruct (f x) as [e|y] eqn:Hx; [done|].
    destruct (for_each f l) as [e|ys]; [done|]. simplify_eq.
    constructor; auto.
Qed.

Lemma Qle_bool_total x y : Qle_bool x y = true ∨ Qle_bool y x = true.
Proof.
  rewrite !Qle_bool_iff. destruct (Qlt_le_dec x y) as [H|H]; auto using Qlt_le_weak.
Qed.

Global Instance score_rel_total : Total Mongo.score_rel.
Proof.
  intros x y. unfold Mongo.score_rel.
  destruct (Qle_bool_total (x.2) (y.2)) as [H|H]; rewrite H; simpl; auto.
Qed.

Global Instance score_rel_trans : Transitive Mongo.score_rel.
Proof.
  intros x y z. unfold Mongo.score_rel.
  rewrite !Is_true_true, !Qle_bool_iff. eauto using Qle_trans.
Qed.

Lemma candidate_to_document sim spec user_id n :
  Mongo.path spec = "embedding" →
  Mongo.filter_ spec = Some (Mongo.FieldEq "user_id" (VStr user_id)) →
  Mongo.candidate sim spec (Mongo.to_document n) =
  if decide (NoteDoc.user_id (stored_doc n) = user_id)
  then Some (scored_note sim (Mongo.queryVector spec) n) else None.
Proof.
  intros Hp Hf. unfold Mongo.candidate. rewrite Hp, Hf, to_document_embedding.
  unfold Mongo.matches. rewrite to_document_user_id. simpl.
  case_bool_decide; case_decide; done.
Qed.

Lemma omap_candidate sim spec user_id coll :
  Mongo.path spec = "embedding" →
  Mongo.filter_ spec = Some (Mongo.FieldEq "user_id" (VStr user_id)) →
  omap (Mongo.candidate sim spec) (Mongo.to_document <$> coll) =
  scored_note sim (Mongo.queryVector spec) <$> notes_of user_id coll.
Proof.
  intros Hp Hf. unfold notes_of. induction coll as [|n coll IH]; [done|].
  rewrite fmap_cons. change (omap ?f (?x :: ?l)) with
    (match f x with Some y => y :: omap f l | None => omap f l end).
  rewrite (candidate_to_document _ _ user_id) by done.
  rewrite filter_cons. case_decide; rewrite IH; done.
Qed.

Lemma ranked_elem sim q user_id coll x :
  x ∈ ranked sim q user_id coll →
  ∃ n, n ∈ coll ∧ NoteDoc.user_id (stored_doc n) = user_id ∧ x = scored_note sim q n.
Proof.
  unfold ranked. rewrite merge_sort_Permutation.
  intros (n & -> & Hn)%list_elem_of_fmap.
  apply list_elem_of_filter in Hn as [Hu Hn]. eauto.
Qed.

Lemma length_ranked sim q user_id coll :
  length (ranked sim q user_id coll) = length (notes_of user_id coll).
Proof. unfold ranked. by rewrite merge_sort_Permutation, length_fmap. Qed.

Lemma ranked_sorted sim q user_id coll :
  StronglySorted Mongo.score_rel (ranked sim q user_id coll).
Proof. apply StronglySorted_merge_sort; apply _. Qed.

Lemma StronglySorted_take {A} (R : relation A) n l :
  StronglySorted R l → StronglySorted R (take n l).
Proof.
  intros H. rewrite <- (take_drop n l) in H. by apply StronglySorted_app_1_l in H.
Qed.

Lemma Forall2_impl_elem {A B} (P Q : A → B → Prop) l k :
  Forall2 P l k → (∀ x y, x ∈ l → P x y → Q x y) → Forall2 Q l k.
Proof.
  induction 1 as [|x y l k Hxy _ IH]; intros HPQ; constructor.
  - apply HPQ; [left|done].
  - apply IH. intros x' y' Hx'. apply HPQ. by right.
Qed.

(** The documents the store answers to the pipeline of [vector_search]. *)
Lemma eval_aggregate_pipeline settings sim q user_id limit coll :
  Mongo.eval_aggregate sim
    (MongoDBService.vector_search_pipeline settings q user_id limit) coll =
  if (limit <? 1)%Z then
    inl (Exn StoreErrorC "$vectorSearch: limit must be a positive number")
  else if (vector_search_num_candidates settings <? limit)%Z then
    inl (Exn StoreErrorC "$vectorSearch: numCandidates must be at least limit")
  else
    inr ((λ x, (Mongo.project_one search_projection x).1) <$>
           take (Z.to_nat limit) (ranked sim q user_id coll)).
Proof.
  unfold MongoDBService.vector_search_pipeline, Mongo.eval_aggregate, Mongo.eval_vectorSearch.
  cbn [Mongo.limit Mongo.numCandidates].
  destruct (Z.ltb_spec limit 1); [done|].
  destruct (Z.ltb_spec (vector_search_num_candidates settings) limit); [done|].
  rewrite (omap_candidate _ _ user_id) by done.
  cbn [Mongo.eval_stages Mongo.eval_stage Mongo.queryVector].
  fold (ranked sim q user_id coll). fold search_projection.
  rewrite take_take, Nat.min_l by lia.
  rewrite <- list_fmap_compose. done.
Qed.

Lemma vector_search_spec settings env q user_id limit w :
  let pipeline := MongoDBService.vector_search_pipeline settings q user_id limit in
  let failed e := Exn ExceptionC ("Vector search failed: " ++ py_str e) in
  MongoDBService.vector_search settings env q user_id limit w =
  if (limit <? 0)%Z then
    (w, inl (failed (Exn ValueErrorC "length must be non-negative")))
  else
    (logged (EvAggregate pipeline) w,
     match store_fault env OpAggregate with
     | Some e => inl (failed e)
     | None =>
         match Mongo.eval_aggregate (similarity env) pipeline (collection w) with
         | inl e => inl (failed e)
         | inr docs =>
             match for_each stringify_id (take (Z.to_nat limit) docs) with
             | inl e => inl (failed e)
             | inr results => inr results
             end
         end
     end).
Proof.
  cbv zeta. unfold MongoDBService.vector_search, to_list, run_aggregate.
  unfold try_except, bind, lift, ret, raise, log.
  destruct (limit <? 0)%Z; [done|].
  destruct (store_fault env OpAggregate); [done|].
  destruct (Mongo.eval_aggregate _ _ _); [done|].
  destruct (for_each _ _); done.
Qed.

(** What a vector search that returns has returned. *)
Lemma vector_search_returns settings env q user_id limit w w' results :
  MongoDBService.vector_search settings env q user_id limit w = (w', inr results) →
  (1 ≤ limit ≤ vector_search_num_candidates settings)%Z ∧
  w' = logged (EvAggregate (MongoDBService.vector_search_pipeline settings q user_id limit)) w ∧
  Forall2 (λ x d, ∃ n, n ∈ collection w ∧ NoteDoc.user_id (stored_doc n) = user_id ∧
                       x = scored_note (similarity env) q n ∧ d = hit_doc n x.2)
    (take (Z.to_nat limit) (ranked (similarity env) q user_id (collection w))) results.
Proof.
  rewrite vector_search_spec. cbv zeta.
  destruct (limit <? 0)%Z; [done|].
  destruct (store_fault env OpAggregate); [done|].
  rewrite eval_aggregate_pipeline.
  destruct (Z.ltb_spec limit 1); [done|].
  destruct (Z.ltb_spec (vector_search_num_candidates settings) limit); [done|].
  rewrite <- fmap_take, take_take, Nat.min_id.
  destruct (for_each _ _) as [e|rs] eqn:Hfe; [done|]. intros [= <- <-].
  split; [lia|]. split; [done|].
  apply for_each_Forall2 in Hfe. apply Forall2_fmap_l in Hfe.
  eapply Forall2_impl_elem; [exact Hfe|]. clear Hfe.
  intros x d Hx%subseteq_take Hxd.
  apply ranked_elem in Hx as (n & Hn & Hu & ->).
  exists n. unfold compose in Hxd. cbv beta in Hxd. unfold scored_note in Hxd |- *.
  rewrite project_to_document, stringify_projected in Hxd. by simplify_eq.
Qed.

Lemma Forall2_compose {A B C} (P : A → B → Prop) (Q : B → C → Prop) l k m :
  Forall2 P l k → Forall2 Q k m → Forall2 (λ x z, ∃ y, P x y ∧ Q y z) l m.
Proof.
  intros H. revert m. induction H as [|x y l k Hxy _ IH]; intros m Hm.
  - inversion Hm. constructor.
  - inversion Hm as [|? z ? m' Hyz Hkm]; subst. constructor; eauto.
Qed.

(** ** The routes *)

(** The world after a search, whatever its outcome: the collection is the
    same, the provider was called once, and at most one query was sent. *)
Lemma search_notes_world settings env query w :
  let qc := query_call settings (SearchQuery.query query) in
  ∃ w' r, Routes.search_notes settings env query w = (w', r) ∧
    collection w' = collection w ∧
    (trace w' = (trace w ++ [EvEmbedContent qc])%list ∨
     ∃ q_emb, trace w' =
       (trace w ++ [EvEmbedContent qc;
                    EvAggregate (MongoDBService.vector_search_pipeline settings q_emb
                                   (SearchQuery.user_id query) (SearchQuery.limit query))])%list).
Proof.
  cbv zeta. unfold Routes.search_notes, try_except, bind.
  rewrite generate_query_embedding_spec.
  destruct (checked settings _ _) as [e|q_emb] eqn:Hc.
  { destruct (is_ValueError e); unfold raise; eauto 10. }
  rewrite vector_search_spec. cbv zeta.
  destruct (SearchQuery.limit query <? 0)%Z.
  { simpl. unfold raise. eauto 10. }
  assert (∀ w1 (r : exn + SearchResponse.t),
    collection w1 = collection w →
    trace w1 = (trace w ++ [EvEmbedContent (query_call settings (SearchQuery.query query));
                  EvAggregate (MongoDBService.vector_search_pipeline settings q_emb
                     (SearchQuery.user_id query) (SearchQuery.limit query))])%list →
    ∃ w' r', (w1, r) = (w', r') ∧ collection w' = collection w ∧
      (trace w' = (trace w ++ [EvEmbedContent (query_call settings (SearchQuery.query query))])%list ∨
       ∃ q_emb, trace w' =
         (trace w ++ [EvEmbedContent (query_call settings (SearchQuery.query query));
                      EvAggregate (MongoDBService.vector_search_pipeline settings q_emb
                         (SearchQuery.user_id query) (SearchQuery.limit query))])%list)) as Hfin.
  { intros w1 r H1 H2. exists w1, r. eauto 10. }
  destruct (store_fault env OpAggregate) as [e|].
  { simpl. apply Hfin; simpl; by rewrite <- ?app_assoc. }
  destruct (Mongo.eval_aggregate _ _ _) as [e|docs].
  { simpl. apply Hfin; simpl; by rewrite <- ?app_assoc. }
  destruct (for_each stringify_id _) as [e|results].
  { simpl. apply Hfin; simpl; by rewrite <- ?app_assoc. }
  unfold lift, ret. destruct (for_each Routes.format_result results) as [e|srs].
  { destruct (is_ValueError e); unfold raise; apply Hfin; simpl; by rewrite <- ?app_assoc. }
  apply Hfin; simpl; by rewrite <- ?app_assoc.
Qed.

(** What a search that returns has returned. *)
Lemma search_notes_returns settings env query w w' resp :
  Routes.search_notes settings env query w = (w', inr resp) →
  ∃ q_emb,
    checked settings "Failed to generate query embedding: "
      (embed_content env (query_call settings (SearchQuery.query query))) = inr q_emb ∧
    (1 ≤ SearchQuery.limit query ≤ vector_search_num_candidates settings)%Z ∧
    Forall2 (λ x r, ∃ n, n ∈ collection w ∧
                 NoteDoc.user_id (stored_doc n) = SearchQuery.user_id query ∧
                 x = scored_note (similarity env) q_emb n ∧
                 r = {| SearchResult.note := response_of n; SearchResult.score := x.2 |})
      (take (Z.to_nat (SearchQuery.limit query))
         (ranked (similarity env) q_emb (SearchQuery.user_id query) (collection w)))
      (SearchResponse.results resp) ∧
    SearchResponse.query resp = SearchQuery.query query ∧
    SearchResponse.count resp = Z.of_nat (length (SearchResponse.results resp)) ∧
    SearchResponse.search_time_ms resp = ((time_end env - time_start env) * 1000)%Q.
Proof.
  unfold Routes.search_notes, try_except, bind.
  rewrite generate_query_embedding_spec.
  destruct (checked settings _ _) as [e|q_emb] eqn:Hc.
  { destruct (is_ValueError e); done. }
  destruct (MongoDBService.vector_search _ _ _ _ _ _) as [w1 [e|results]] eqn:Hvs.
  { destruct (is_ValueError e); done. }
  apply vector_search_returns in Hvs as (Hlim & -> & Hres).
  unfold lift, ret. destruct (for_each Routes.format_result results) as [e|srs] eqn:Hfe.
  { destruct (is_ValueError e); done. }
  intros [= <- <-]. exists q_emb. simpl. repeat split; try done; try lia.
  apply for_each_Forall2 in Hfe.
  eapply Forall2_impl; [exact (Forall2_compose _ _ _ _ _ Hres Hfe)|].
  intros x r (d & (n & Hn & Hu & -> & ->) & Hr). exists n.
  rewrite format_hit in Hr. by simplify_eq.
Qed.

(** ** Listing *)

Lemma bson_leb_total a b : Mongo.bson_leb a b = true ∨ Mongo.bson_leb b a = true.
Proof.
  destruct a, b; simpl; auto using Qle_bool_total, String.leb_total.
  destruct (Z.leb_spec t t0); [auto|]. right. apply Z.leb_le. lia.
Qed.

Lemma key_leb_total a b : Mongo.key_leb a b = true ∨ Mongo.key_leb b a = true.
Proof. destruct a, b; simpl; auto using bson_leb_total. Qed.

Global Instance sort_rel_total field dir : Total (Mongo.sort_rel field dir).
Proof.
  intros d1 d2. unfold Mongo.sort_rel.
  destruct dir, (key_leb_total (d1 !! field) (d2 !! field)) as [H|H]; rewrite H; simpl; auto.
Qed.

Lemma fmap_preimage {A B} (f : A → B) (P : A → Prop) l :
  Forall (λ y, ∃ x, P x ∧ y = f x) l → ∃ l0, l = f <$> l0 ∧ Forall P l0.
Proof.
  induction 1 as [|y l (x & Hx & ->) _ (l0 & -> & Hl0)].
  - by exists [].
  - exists (x :: l0). split; [done|]. by constructor.
Qed.

Lemma Sorted_fmap_inv {A B} (f : A → B) (R : relation B) l :
  Sorted R (f <$> l) → Sorted (λ x y, R (f x) (f y)) l.
Proof.
  induction l as [|x l IH]; [constructor|].
  rewrite fmap_cons. inversion 1 as [|? ? Hs Hh]; subst. constructor; [auto|].
  destruct l; [constructor|]. rewrite fmap_cons in Hh. inversion Hh. by constructor.
Qed.

Lemma matches_user_id user_id n :
  Mongo.matches (Mongo.FieldEq "user_id" (VStr user_id)) (Mongo.to_document n) =
  bool_decide (NoteDoc.user_id (stored_doc n) = user_id).
Proof. unfold Mongo.matches. by rewrite to_document_user_id. Qed.

Lemma Sorted_weaken {A} (R R' : relation A) l :
  (∀ x y, R x y → R' x y) → Sorted R l → Sorted R' l.
Proof.
  intros HR. induction 1 as [|x l _ IH Hh]; constructor; [done|].
  destruct Hh; constructor; auto.
Qed.

Lemma find_by_user user_id coll :
  filter (λ d, Is_true (Mongo.matches (Mongo.FieldEq "user_id" (VStr user_id)) d))
    (Mongo.to_document <$> coll) = Mongo.to_document <$> notes_of user_id coll.
Proof.
  unfold notes_of. induction coll as [|n coll IH]; [done|].
  rewrite fmap_cons, !filter_cons, IH.
  pose proof (matches_user_id user_id n) as Hm.
  repeat case_decide; try done; rewrite Hm in *;
    match goal with H : _ |- _ => apply bool_decide_unpack in H; done
                  | H : ¬ _ |- _ => destruct H; by apply bool_decide_pack end.
Qed.

(** The notes the store finds for the cursor of [list_notes]: notes of the
    user, the most recently updated first. *)
Lemma sorted_by_user user_id coll :
  ∃ ns,
    merge_sort (Mongo.sort_rel "updated_at" Mongo.DESCENDING)
      (Mongo.to_document <$> notes_of user_id coll) = Mongo.to_document <$> ns ∧
    length ns = length (notes_of user_id coll) ∧
    Forall (λ n, n ∈ coll ∧ NoteDoc.user_id (stored_doc n) = user_id) ns ∧
    StronglySorted (λ a b, (NoteDoc.updated_at (stored_doc b)
                            ≤ NoteDoc.updated_at (stored_doc a))%Z) ns.
Proof.
  set (l := merge_sort _ _).
  assert (l ≡ₚ Mongo.to_document <$> notes_of user_id coll) as Hp
    by apply merge_sort_Permutation.
  destruct (fmap_preimage Mongo.to_document
              (λ n, n ∈ coll ∧ NoteDoc.user_id (stored_doc n) = user_id) l) as (ns & Hns & Hall).
  { apply Forall_forall. intros d Hd. rewrite Hp in Hd.
    apply list_elem_of_fmap in Hd as (n & -> & Hn).
    apply list_elem_of_filter in Hn as [? ?]. eauto. }
  exists ns. split; [done|]. split.
  { rewrite <- (length_fmap Mongo.to_document ns), <- Hns, Hp. by rewrite length_fmap. }
  split; [done|].
  assert (Sorted (Mongo.sort_rel "updated_at" Mongo.DESCENDING) l) as Hs
    by (apply Sorted_merge_sort; apply _).
  rewrite Hns in Hs. apply Sorted_fmap_inv in Hs.
  apply Sorted_StronglySorted.
  { intros a b c ??. lia. }
  eapply Sorted_weaken; [|exact Hs].
  intros a b. unfold Mongo.sort_rel. rewrite !to_document_updated_at. simpl.
  intros H%Is_true_true. by apply Z.leb_le.
Qed.

Lemma for_each_fmap_total {A B C} (f : B → exn + C) (h : A → B) (g : A → C) l :
  (∀ x, f (h x) = inr (g x)) → for_each f (h <$> l) = inr (g <$> l).
Proof.
  intros H. induction l as [|x l IH]; [done|].
  rewrite !fmap_cons. simpl. by rewrite H, IH.
Qed.

Lemma list_notes_spec env user_id limit w :
  let cursor :=
    {| Mongo.find_filter := Mongo.FieldEq "user_id" (VStr user_id);
       Mongo.find_exclude := ["embedding"];
       Mongo.find_sort := ("updated_at", Mongo.DESCENDING);
       Mongo.find_limit := limit |} in
  MongoDBService.list_notes env user_id limit w =
  if (limit <? 0)%Z then (w, inl (Exn ValueErrorC "length must be non-negative"))
  else if (Bson.int64_max <? limit)%Z then
    (w, inl (Exn OverflowErrorC "MongoDB can only handle up to 8-byte ints"))
  else
    (logged (EvFind cursor) w,
     match store_fault env OpFind with
     | Some e => inl e
     | None =>
         for_each stringify_id
           (take (Z.to_nat limit) (Mongo.eval_find cursor (collection w)))
     end).
Proof.
  cbv zeta. unfold MongoDBService.list_notes, to_list, run_find.
  cbn [Mongo.find_limit].
  unfold bind, lift, ret, raise, log.
  destruct (Z.ltb_spec limit 0); [done|].
  rewrite Z.abs_eq by done.
  destruct (Bson.int64_max <? limit)%Z; [done|].
  destruct (store_fault env OpFind); [done|].
  destruct (for_each _ _); done.
Qed.

(** What a listing that returns has returned. *)
Lemma list_notes_returns env user_id limit w w' notes :
  MongoDBService.list_notes env user_id limit w = (w', inr notes) →
  (0 ≤ limit)%Z ∧ collection w' = collection w ∧
  ∃ ns, notes = listed_doc <$> ns ∧
    (length ns ≤ Z.to_nat limit)%nat ∧
    Forall (λ n, n ∈ collection w ∧ NoteDoc.user_id (stored_doc n) = user_id) ns ∧
    StronglySorted (λ a b, (NoteDoc.updated_at (stored_doc b)
                            ≤ NoteDoc.updated_at (stored_doc a))%Z) ns.
Proof.
  rewrite list_notes_spec. cbv zeta.
  destruct (Z.ltb_spec limit 0); [done|].
  destruct (Bson.int64_max <? limit)%Z; [done|].
  destruct (store_fault env OpFind); [done|].
  unfold Mongo.eval_find. cbn [Mongo.find_filter Mongo.find_sort Mongo.find_limit
    Mongo.find_exclude fst snd].
  rewrite find_by_user.
  destruct (sorted_by_user user_id (collection w)) as (ns & -> & _ & Hall & Hs).
  intros [= <- Hfe]. split; [done|]. split; [done|].
  exists (take (Z.to_nat limit) (Mongo.apply_limit limit ns)).
  assert (Forall (λ n, n ∈ collection w ∧ NoteDoc.user_id (stored_doc n) = user_id)
            (Mongo.apply_limit limit ns) ∧
          StronglySorted (λ a b, (NoteDoc.updated_at (stored_doc b)
                            ≤ NoteDoc.updated_at (stored_doc a))%Z)
            (Mongo.apply_limit limit ns)) as [Hall' Hs'].
  { unfold Mongo.apply_limit. destruct (limit =? 0)%Z; [done|].
    split; [by apply Forall_take | by apply StronglySorted_take]. }
  split; [|split; [|split]].
  - assert (Mongo.apply_limit limit (Mongo.to_document <$> ns) =
            Mongo.to_document <$> Mongo.apply_limit limit ns) as Hcomm.
    { unfold Mongo.apply_limit. destruct (limit =? 0)%Z; [done|]. by rewrite fmap_take. }
    rewrite Hcomm, <- !fmap_take, <- list_fmap_compose in Hfe.
    rewrite (for_each_fmap_total _ _ listed_doc) in Hfe; [by simplify_eq|].
    intros n. apply stringify_excluded.
  - rewrite length_take. lia.
  - by apply Forall_take.
  - by apply StronglySorted_take.
Qed.

Lemma list_notes_world env user_id limit w :
  ∃ w' r, MongoDBService.list_notes env user_id limit w = (w', r) ∧
    collection w' = collection w ∧
    ∃ evs, trace w' = (trace w ++ evs)%list ∧
      embed_calls evs = [] ∧ inserts evs = [] ∧ searches evs = [].
Proof.
  rewrite list_notes_spec. cbv zeta.
  destruct (limit <? 0)%Z; [|destruct (Bson.int64_max <? limit)%Z].
  - eexists _, _. split; [done|]. split; [done|]. exists []. by rewrite app_nil_r.
  - eexists _, _. split; [done|]. split; [done|]. exists []. by rewrite app_nil_r.
  - eexists _, _. split; [done|]. split; [done|]. by eexists [_].
Qed.

Lemma list_user_notes_world env user_id limit w :
  ∃ w' r, Routes.list_user_notes env user_id limit w = (w', r) ∧
    collection w' = collection w ∧
    ∃ evs, trace w' = (trace w ++ evs)%list ∧
      embed_calls evs = [] ∧ inserts evs = [] ∧ searches evs = [].
Proof.
  unfold Routes.list_user_notes, try_except, bind, lift, raise.
  destruct (list_notes_world env user_id limit w) as (w' & r & -> & Hc & Hev).
  destruct r as [e|notes]; [eauto|].
  destruct (for_each _ _); eauto.
Qed.

(** A request leaves the collection as it was or adds one note to it, and
    the note it adds carries the vector the provider returned, of the
    configured length. *)
Lemma serve_collection settings er w :
  collection (serve settings er w) = collection w ∨
  ∃ n, collection (serve settings er w) = (collection w ++ [n])%list ∧
       Z.of_nat (length (NoteDoc.embedding (stored_doc n)))
       = gemini_embedding_dimensions settings.
Proof.
  destruct er as [env [b|b|user_id limit]]; unfold serve; simpl.
  - unfold Routes.post_notes, Routes.request_validation, bind.
    destruct (NoteCreate.validate b) as [e|note]; [by left|]. unfold ret.
    destruct (route_create_note_cases settings env note w) as (w' & r & -> & H).
    simpl. destruct (checked _ _ _) as [e|emb] eqn:Hc.
    + destruct H as [-> _]. by left.
    + destruct H as (tail & _ & _ & _ & _ & [->| ->]); [by left|right].
      eexists. split; [done|]. simpl. by apply checked_inr in Hc as [_ ?].
  - unfold Routes.post_search, Routes.request_validation, bind.
    destruct (SearchQuery.validate b) as [e|query]; [by left|]. unfold ret.
    destruct (search_notes_world settings env query w) as (w' & r & -> & Hc & _). by left.
  - unfold Routes.get_notes.
    destruct (list_user_notes_world env user_id (default 100%Z limit) w)
      as (w' & r & -> & Hc & _). by left.
Qed.

Lemma serve_all_invariant settings (P : StoredNote → Prop) ers w :
  (∀ n, Z.of_nat (length (NoteDoc.embedding (stored_doc n)))
        = gemini_embedding_dimensions settings → P n) →
  Forall P (collection w) → Forall P (collection (serve_all settings ers w)).
Proof.
  intros HP. revert w. induction ers as [|er ers IH]; intros w Hw; [done|].
  simpl. apply IH.
  destruct (serve_collection settings er w) as [-> | (n & -> & Hn)]; [done|].
  apply Forall_app. split; [done|]. constructor; auto.
Qed.

(** ** Further facts on the routes and the store *)

Lemma embed_calls_app tr1 tr2 :
  embed_calls (tr1 ++ tr2) = (embed_calls tr1 ++ embed_calls tr2)%list.
Proof. unfold embed_calls. apply omap_app. Qed.

Lemma searches_app tr1 tr2 : searches (tr1 ++ tr2) = (searches tr1 ++ searches tr2)%list.
Proof. unfold searches. apply omap_app. Qed.

Lemma blank_field_rejected name max_length validator (message : string) raw v :
  raw = Some v → PyStr.all_space v = true →
  (∀ s, validator s =
        if negb (PyStr.truthy s) || negb (PyStr.truthy (PyStr.strip s))
        then inl (Exn ValueErrorC message) else inr (PyStr.strip s)) →
  ∃ e, and_then (str_field name 1 max_length raw) validator = inl e.
Proof.
  intros -> Hv Hval. unfold and_then, str_field.
  destruct (PyStr.len v <? 1)%Z; [eauto|].
  assert (validator v = inl (Exn ValueErrorC message)) as Hr.
  { rewrite Hval. apply strip_empty_iff in Hv. rewrite Hv. simpl.
    by rewrite orb_true_r. }
  destruct max_length as [m|]; [destruct (m <? PyStr.len v)%Z|]; eauto.
Qed.

Lemma limit_field_range raw n :
  SearchQuery.limit_field raw = inr n → n = default 10%Z raw ∧ (1 ≤ n ≤ 50)%Z.
Proof.
  unfold SearchQuery.limit_field. destruct raw as [m|]; simpl.
  - destruct (Z.ltb_spec m 1); [done|]. destruct (Z.ltb_spec 50 m); [done|].
    intros [= <-]. lia.
  - intros [= <-]. lia.
Qed.

Lemma validate_query_limit b query :
  SearchQuery.validate b = inr query →
  SearchQuery.limit query = default 10%Z (SearchQuery.body_limit b) ∧
  (1 ≤ SearchQuery.limit query ≤ 50)%Z.
Proof.
  unfold SearchQuery.validate. cbv zeta.
  destruct (and_then _ _); [done|]. destruct (str_field _ _ _ _); [done|].
  destruct (SearchQuery.limit_field _) as [e|n] eqn:Hl; [done|].
  intros [= <-]. simpl. by apply limit_field_range.
Qed.

Lemma StronglySorted_Forall2 {A B} (R : relation A) (R' : relation B) (P : A → B → Prop) l k :
  (∀ x x' y y', R x x' → P x y → P x' y' → R' y y') →
  StronglySorted R l → Forall2 P l k → StronglySorted R' k.
Proof.
  intros HR Hs Hf. revert Hs. induction Hf as [|x y l k Hxy Hlk IH]; intros Hs.
  - constructor.
  - apply StronglySorted_inv in Hs as [Hs Hall]. constructor; [auto|].
    clear IH Hs. induction Hlk as [|x' y' l k Hxy' _ IH]; [constructor|].
    inversion Hall; subst. constructor; eauto.
Qed.

Lemma for_each_defined {A B} (f : A → exn + B) l :
  Forall (λ x, ∃ y, f x = inr y) l → ∃ l', for_each f l = inr l'.
Proof.
  induction 1 as [|x l [y Hy] _ [l' IH]]; simpl; [eauto|]. rewrite Hy, IH. eauto.
Qed.

(** A vector search returns whenever the limit is within 1 and the number of
    candidates and the store answers. *)
Lemma vector_search_total settings env q user_id limit w :
  (1 ≤ limit ≤ vector_search_num_candidates settings)%Z →
  store_fault env OpAggregate = None →
  ∃ w' results, MongoDBService.vector_search settings env q user_id limit w = (w', inr results).
Proof.
  intros Hlim Hf. rewrite vector_search_spec. cbv zeta.
  destruct (Z.ltb_spec limit 0); [lia|]. rewrite Hf, eval_aggregate_pipeline.
  destruct (Z.ltb_spec limit 1); [lia|].
  destruct (Z.ltb_spec (vector_search_num_candidates settings) limit); [lia|].
  destruct (for_each_defined stringify_id
    (take (Z.to_nat limit)
       ((λ x, (Mongo.project_one search_projection x).1) <$>
          take (Z.to_nat limit) (ranked (similarity env) q user_id (collection w)))))
    as [results ->]; [|eauto].
  apply Forall_take, Forall_fmap, Forall_forall.
  intros x (n & _ & _ & ->)%subseteq_take%ranked_elem.
  unfold compose, scored_note. cbv beta. rewrite project_to_document, stringify_projected. eauto.
Qed.

(** A search returns whenever the provider returns a vector of the
    configured length, the limit is within 1 and the number of candidates,
    and the store answers. *)
Lemma search_notes_total settings env query w q_emb :
  embed_content env (query_call settings (SearchQuery.query query)) = inr q_emb →
  Z.of_nat (length q_emb) = gemini_embedding_dimensions settings →
  (1 ≤ SearchQuery.limit query ≤ vector_search_num_candidates settings)%Z →
  store_fault env OpAggregate = None →
  ∃ w' resp, Routes.search_notes settings env query w = (w', inr resp).
Proof.
  intros He Hd Hlim Hf. unfold Routes.search_notes, try_except, bind.
  rewrite generate_query_embedding_spec, He. unfold checked.
  rewrite (proj2 (Z.eqb_eq _ _) Hd).
  destruct (vector_search_total settings env q_emb (SearchQuery.user_id query)
              (SearchQuery.limit query)
              (logged (EvEmbedContent (query_call settings (SearchQuery.query query))) w)
              Hlim Hf) as (w1 & results & Hvs).
  rewrite Hvs. apply vector_search_returns in Hvs as (_ & _ & Hres).
  unfold lift, ret.
  destruct (for_each_defined Routes.format_result results) as [srs ->]; [|eauto].
  apply (Forall2_Forall_r _ _ _ _ Hres), Forall_forall.
  intros x _ d (n & _ & _ & _ & ->). rewrite format_hit. eauto.
Qed.

Lemma matches_id oid n :
  Mongo.matches (Mongo.FieldEq "_id" (VOid oid)) (Mongo.to_document n) =
  bool_decide (stored_id n = oid).
Proof. unfold Mongo.matches. by rewrite to_document_id. Qed.

Lemma filter_by_id oid (coll : list StoredNote) :
  filter (λ d, Is_true (Mongo.matches (Mongo.FieldEq "_id" (VOid oid)) d))
    (Mongo.to_document <$> coll) =
  Mongo.to_document <$> filter (λ n, stored_id n = oid) coll.
Proof.
  induction coll as [|n coll IH]; [done|].
  rewrite fmap_cons, !filter_cons, IH.
  pose proof (matches_id oid n) as Hm.
  repeat case_decide; try done; rewrite Hm in *;
    match goal with H : _ |- _ => apply bool_decide_unpack in H; done
                  | H : ¬ _ |- _ => destruct H; by apply bool_decide_pack end.
Qed.

Lemma filter_by_id_fresh oid (coll : list StoredNote) :
  oid ∉ (stored_id <$> coll) → filter (λ n, stored_id n = oid) coll = [].
Proof.
  intros Hfresh. induction coll as [|n coll IH]; [done|].
  rewrite fmap_cons, not_elem_of_cons in Hfresh. destruct Hfresh as [Hne Hfresh].
  rewrite filter_cons. case_decide; [congruence|auto].
Qed.

Lemma find_by_id_absent oid w :
  oid ∉ (stored_id <$> collection w) → find_by_id oid w = None.
Proof.
  intros Hfresh. unfold find_by_id. by rewrite filter_by_id, filter_by_id_fresh.
Qed.

Lemma find_by_id_last oid d coll tr :
  oid ∉ (stored_id <$> coll) →
  find_by_id oid {| collection := coll ++ [{| stored_id := oid; stored_doc := d |}];
                    trace := tr |}
  = Some (Mongo.to_document {| stored_id := oid; stored_doc := d |}).
Proof.
  intros Hfresh. unfold find_by_id. cbn [collection].
  rewrite filter_by_id, filter_app, filter_by_id_fresh by done.
  rewrite filter_cons. simpl. case_decide; done.
Qed.

(** An ingestion returns the note it stored when the provider returns a
    vector of the configured length and the store accepts the write and
    answers the read. *)
Lemma ingest_returns_stored_note settings env note emb w :
  embed_content env (ingest_call settings note) = inr emb →
  Z.of_nat (length emb) = gemini_embedding_dimensions settings →
  store_fault env OpInsertOne = None →
  store_fault env OpFindOne = None →
  length (new_object_id env) = 12%nat →
  new_object_id env ∉ (stored_id <$> collection w) →
  let n := {| stored_id := new_object_id env;
              stored_doc := new_note_doc env (NoteCreate.title note) (NoteCreate.content note)
                              (NoteCreate.user_id note) (NoteCreate.tags note) emb |} in
  ∃ w', Routes.create_note settings env note w = (w', inr (response_of n)) ∧
        collection w' = (collection w ++ [n])%list.
Proof.
  intros He Hd Hins Hfind Hlen Hfresh n.
  unfold Routes.create_note, try_except, bind.
  rewrite generate_note_embedding_spec, generate_embedding_spec.
  unfold ingest_call in He. rewrite He. unfold checked.
  rewrite (proj2 (Z.eqb_eq _ _) Hd).
  rewrite create_note_spec. cbv zeta. rewrite Hins.
  rewrite bool_decide_eq_false_2 by done.
  rewrite get_note_spec, ObjectId_of_str_str, Hfind by done.
  rewrite find_by_id_last by done. fold n.
  rewrite bool_decide_eq_true_2 by apply to_document_nonempty.
  rewrite stringify_document.
  assert (Routes.falsy (Some (fetched_doc n)) = false) as ->.
  { simpl. apply bool_decide_eq_false_2. intros H.
    assert (fetched_doc n !! "_id" = None) as Hid by (by rewrite H). done. }
  unfold lift. simpl. rewrite validate_fetched. eauto.
Qed.

(** ** The answers of the store, as lists of notes *)

Lemma fmap_Permutation_inv {A B} (f : A → B) (l : list B) (k : list A) :
  l ≡ₚ f <$> k → ∃ k', l = f <$> k' ∧ k' ≡ₚ k.
Proof.
  intros Hp. change (f <$> k) with (map f k) in Hp.
  apply Permutation_map_inv in Hp as (k' & -> & Hk). exists k'. split; [done|].
  by symmetry.
Qed.

Lemma StronglySorted_fmap_inv {A B} (f : A → B) (R : relation B) l :
  StronglySorted R (f <$> l) → StronglySorted (λ x y, R (f x) (f y)) l.
Proof.
  induction l as [|x l IH]; [constructor|].
  rewrite fmap_cons. intros [Hs Hall]%StronglySorted_inv. constructor; [auto|].
  apply Forall_forall. intros y Hy. rewrite Forall_forall in Hall.
  apply Hall. by apply list_elem_of_fmap_2.
Qed.

Lemma StronglySorted_weaken {A} (R R' : relation A) l :
  (∀ x y, R x y → R' x y) → StronglySorted R l → StronglySorted R' l.
Proof.
  intros HR. induction 1 as [|x l _ IH Hall]; constructor; [done|].
  eapply Forall_impl; [exact Hall|]. auto.
Qed.

(** The notes the store finds for the cursor of [list_notes], as a list of
    notes: all the notes of the user, the most recently updated first. *)
Lemma sorted_by_user_complete user_id coll :
  ∃ ns,
    merge_sort (Mongo.sort_rel "updated_at" Mongo.DESCENDING)
      (Mongo.to_document <$> notes_of user_id coll) = Mongo.to_document <$> ns ∧
    ns ≡ₚ notes_of user_id coll ∧
    StronglySorted (λ a b, (NoteDoc.updated_at (stored_doc b)
                            ≤ NoteDoc.updated_at (stored_doc a))%Z) ns.
Proof.
  set (l := merge_sort _ _).
  destruct (fmap_Permutation_inv Mongo.to_document l (notes_of user_id coll))
    as (ns & Hns & Hp); [apply merge_sort_Permutation|].
  exists ns. split; [done|]. split; [done|].
  assert (Sorted (Mongo.sort_rel "updated_at" Mongo.DESCENDING) l) as Hs
    by (apply Sorted_merge_sort; apply _).
  rewrite Hns in Hs. apply Sorted_fmap_inv in Hs.
  apply Sorted_StronglySorted.
  { intros a b c ??. lia. }
  eapply Sorted_weaken; [|exact Hs].
  intros a b. unfold Mongo.sort_rel. rewrite !to_document_updated_at. simpl.
  intros H%Is_true_true. by apply Z.leb_le.
Qed.

(** The same for the ranking of a vector search. *)
Lemma ranked_complete sim q user_id coll :
  ∃ ns,
    ranked sim q user_id coll = scored_note sim q <$> ns ∧
    ns ≡ₚ notes_of user_id coll ∧
    StronglySorted (λ a b, (sim q (NoteDoc.embedding (stored_doc b))
                            <= sim q (NoteDoc.embedding (stored_doc a)))%Q) ns.
Proof.
  destruct (fmap_Permutation_inv (scored_note sim q) (ranked sim q user_id coll)
              (notes_of user_id coll)) as (ns & Hns & Hp);
    [apply merge_sort_Permutation|].
  exists ns. split; [done|]. split; [done|].
  pose proof (ranked_sorted sim q user_id coll) as Hs. rewrite Hns in Hs.
  apply StronglySorted_fmap_inv in Hs.
  eapply StronglySorted_weaken; [|exact Hs].
  intros a b Hab. unfold Mongo.score_rel, scored_note in Hab. simpl in Hab.
  by apply Is_true_true, Qle_bool_iff in Hab.
Qed.

Lemma listed_doc_shows n : record_shows (listed_doc n) n.
Proof. repeat split; reflexivity. Qed.

Lemma answered_doc_shows n s :
  result_shows (answered_doc n s)
    {| SearchResult.note := response_of n; SearchResult.score := s |}.
Proof. split; [by exists (stored_id n)|]. repeat split; reflexivity. Qed.

Lemma Forall2_fmap_same {A B C} (P : B → C → Prop) (f : A → B) (g : A → C) l :
  (∀ x, P (f x) (g x)) → Forall2 P (f <$> l) (g <$> l).
Proof. intros H. induction l; constructor; auto. Qed.

(** A listing that returns, as a function of the notes of the user. *)
Lemma list_notes_returns_exact env user_id limit w w' notes :
  MongoDBService.list_notes env user_id limit w = (w', inr notes) →
  (0 ≤ limit ≤ Bson.int64_max)%Z ∧
  ∃ ns,
    ns ≡ₚ notes_of user_id (collection w) ∧
    StronglySorted (λ a b, (NoteDoc.updated_at (stored_doc b)
                            ≤ NoteDoc.updated_at (stored_doc a))%Z) ns ∧
    notes = listed_doc <$> take (Z.to_nat limit) ns.
Proof.
  rewrite list_notes_spec. cbv zeta.
  destruct (Z.ltb_spec limit 0); [done|].
  destruct (Z.ltb_spec Bson.int64_max limit); [done|].
  destruct (store_fault env OpFind); [done|].
  unfold Mongo.eval_find. cbn [Mongo.find_filter Mongo.find_sort Mongo.find_limit
    Mongo.find_exclude fst snd].
  rewrite find_by_user.
  destruct (sorted_by_user_complete user_id (collection w)) as (ns & -> & Hp & Hs).
  assert (take (Z.to_nat limit) (Mongo.apply_limit limit (Mongo.to_document <$> ns)) =
          Mongo.to_document <$> take (Z.to_nat limit) ns) as Htake.
  { unfold Mongo.apply_limit. destruct (Z.eqb_spec limit 0) as [->|Hne].
    - done.
    - rewrite Z.abs_eq by lia. by rewrite take_take, Nat.min_id, fmap_take. }
  rewrite <- fmap_take, Htake, <- list_fmap_compose.
  rewrite (for_each_fmap_total _ _ listed_doc) by (intros n; apply stringify_excluded).
  intros [= <- <-]. split; [lia|]. by exists ns.
Qed.

(** A search that returns, as a function of the notes of the user: what
    the store answered and what the response holds. *)
Lemma search_notes_returns_exact settings env query w w' resp :
  Routes.search_notes settings env query w = (w', inr resp) →
  ∃ q_emb ns,
    embed_content env (query_call settings (SearchQuery.query query)) = inr q_emb ∧
    ns ≡ₚ notes_of (SearchQuery.user_id query) (collection w) ∧
    StronglySorted (λ a b, (similarity env q_emb (NoteDoc.embedding (stored_doc b))
                            <= similarity env q_emb (NoteDoc.embedding (stored_doc a)))%Q)
      ns ∧
    Mongo.eval_aggregate (similarity env)
      (MongoDBService.vector_search_pipeline settings q_emb (SearchQuery.user_id query)
         (SearchQuery.limit query)) (collection w)
    = inr ((λ n, answered_doc n (similarity env q_emb (NoteDoc.embedding (stored_doc n))))
             <$> take (Z.to_nat (SearchQuery.limit query)) ns) ∧
    SearchResponse.results resp
    = (λ n, {| SearchResult.note := response_of n;
               SearchResult.score :=
                 similarity env q_emb (NoteDoc.embedding (stored_doc n)) |})
        <$> take (Z.to_nat (SearchQuery.limit query)) ns.
Proof.
  unfold Routes.search_notes, try_except, bind.
  rewrite generate_query_embedding_spec.
  destruct (checked settings _ _) as [e|q_emb] eqn:Hc.
  { destruct (is_ValueError e); done. }
  apply checked_inr in Hc as [Hc _].
  rewrite vector_search_spec. cbv zeta.
  destruct (SearchQuery.limit query <? 0)%Z; [done|].
  destruct (store_fault env OpAggregate) as [e|]; [done|].
  rewrite eval_aggregate_pipeline.
  change (collection (logged _ w)) with (collection w).
  destruct (Z.ltb_spec (SearchQuery.limit query) 1) as [|Hlo]; [done|].
  destruct (Z.ltb_spec (vector_search_num_candidates settings) (SearchQuery.limit query))
    as [|Hhi]; [done|].
  destruct (ranked_complete (similarity env) q_emb (SearchQuery.user_id query)
              (collection w)) as (ns & Hr & Hp & Hs).
  assert ((λ x : Mongo.scored, (Mongo.project_one search_projection x).1)
            <$> take (Z.to_nat (SearchQuery.limit query))
                  (ranked (similarity env) q_emb (SearchQuery.user_id query) (collection w))
          = (λ n, answered_doc n (similarity env q_emb (NoteDoc.embedding (stored_doc n))))
              <$> take (Z.to_nat (SearchQuery.limit query)) ns) as Hout.
  { rewrite Hr, <- fmap_take, <- list_fmap_compose. done. }
  rewrite Hout.
  rewrite <- fmap_take, take_take, Nat.min_id.
  rewrite (for_each_fmap_total _ _
             (λ n, hit_doc n (similarity env q_emb (NoteDoc.embedding (stored_doc n)))))
    by (intros n; apply stringify_projected).
  unfold lift, ret.
  rewrite (for_each_fmap_total _ _
    (λ n, {| SearchResult.note := response_of n;
             SearchResult.score :=
               similarity env q_emb (NoteDoc.embedding (stored_doc n)) |}))
    by (intros n; apply format_hit).
  intros [= <- <-]. exists q_emb, ns.
  split; [exact Hc|]. split; [exact Hp|]. split; [exact Hs|]. split; [|reflexivity].
  rewrite eval_aggregate_pipeline.
  destruct (Z.ltb_spec (SearchQuery.limit query) 1); [lia|].
  destruct (Z.ltb_spec (vector_search_num_candidates settings) (SearchQuery.limit query));
    [lia|].
  by rewrite Hout.
Qed.

(** * The claims *)

(** C1: The user filter of a vector search is part of the [$vectorSearch]
    stage itself and the pipeline has no later filtering stage.  So a
    search that returns has returned notes of the requesting user only,
    whatever the limit and however similar the notes of other users are,
    and it has returned as many of them as the limit allows: the limit
    counts notes of that user, not candidates of all users.  The same holds
    for the results of the search endpoint.  A search returns whenever the
    limit is within 1 and the number of candidates and the store answers. *)
Theorem vector_search_scoped_to_user settings env q user_id limit w :
  (∃ spec rest,
     MongoDBService.vector_search_pipeline settings q user_id limit
       = Mongo.VectorSearch spec :: rest ∧
     Mongo.filter_ spec = Some (Mongo.FieldEq "user_id" (VStr user_id)) ∧
     Mongo.limit spec = limit ∧
     Forall (λ st, match st with Mongo.Project _ => True | _ => False end) rest) ∧
  (∀ w' results,
     MongoDBService.vector_search settings env q user_id limit w = (w', inr results) →
     Forall (λ d, d !! "user_id" = Some (VStr user_id)) results ∧
     length results
     = Nat.min (Z.to_nat limit) (length (notes_of user_id (collection w)))) ∧
  (∀ query w' resp,
     SearchQuery.user_id query = user_id →
     Routes.search_notes settings env query w = (w', inr resp) →
     Forall (λ r, NoteResponse.user_id (SearchResult.note r) = user_id)
       (SearchResponse.results resp)) ∧
  ((1 ≤ limit ≤ vector_search_num_candidates settings)%Z →
   store_fault env OpAggregate = None →
   ∃ w' results,
     MongoDBService.vector_search settings env q user_id limit w = (w', inr results)).
Proof.
  split; [|split; [|split]]; [| | |apply vector_search_total].
  - eexists _, _. split; [reflexivity|]. repeat split. by repeat constructor.
  - intros w' results (Hlim & _ & Hres)%vector_search_returns. split.
    + apply (Forall2_Forall_r _ _ _ _ Hres), Forall_forall.
      intros x _ d (n & _ & <- & _ & ->). done.
    + by rewrite <- (Forall2_length _ _ _ Hres), length_take, length_ranked.
  - intros query w' resp <- (q_emb & _ & _ & Hres & _)%search_notes_returns.
    apply (Forall2_Forall_r _ _ _ _ Hres), Forall_forall.
    intros x _ r (n & _ & <- & _ & ->). done.
Qed.

(** C2: Every note that is ever persisted carries an embedding of the
    configured length, 768 by default.  Whatever requests the service has
    served since the collection was empty, every stored note has such an
    embedding.  Within one ingestion the provider is called first and the
    write comes after it: when the provider fails, or returns a vector of
    another length, the request ends in an error that names the failure (for
    a mismatch: the expected and the received lengths), nothing was sent to
    the store and the collection is as it was; otherwise the only write of
    the request stores exactly the vector the provider returned. *)
Theorem persisted_notes_carry_embedding settings :
  gemini_embedding_dimensions default_settings = 768%Z ∧
  (∀ ers,
     Forall (λ n, Z.of_nat (length (NoteDoc.embedding (stored_doc n)))
                  = gemini_embedding_dimensions settings)
       (collection (serve_all settings ers empty_world))) ∧
  (∀ env note w,
     let c := ingest_call settings note in
     ∃ w' r, Routes.create_note settings env note w = (w', r) ∧
       match embed_content env c with
       | inl e =>
           w' = logged (EvEmbedContent c) w ∧
           r = inl (HTTPException 500
                      ("Failed to create note: Failed to generate embedding: " ++ py_str e))
       | inr emb =>
           if (Z.of_nat (length emb) =? gemini_embedding_dimensions settings)%Z then
             let d := new_note_doc env (NoteCreate.title note) (NoteCreate.content note)
                        (NoteCreate.user_id note) (NoteCreate.tags note) emb in
             ∃ tail,
               trace w' = (trace w ++ EvEmbedContent c :: EvInsertOne d :: tail)%list ∧
               inserts tail = [] ∧
               (collection w' = collection w ∨
                collection w' =
                  (collection w ++ [{| stored_id := new_object_id env; stored_doc := d |}])%list)
           else
             w' = logged (EvEmbedContent c) w ∧
             r = inl (HTTPException 500
                        ("Failed to create note: Failed to generate embedding: "
                         ++ "Expected " ++ pretty (gemini_embedding_dimensions settings)
                         ++ " dimensions, got " ++ pretty (Z.of_nat (length emb))))
       end).
Proof.
  split; [done|]. split.
  - intros ers. apply serve_all_invariant; [auto|]. constructor.
  - intros env note w c.
    destruct (route_create_note_cases settings env note w) as (w' & r & Hrun & H).
    exists w', r. split; [done|]. fold c in H. unfold checked in H.
    destruct (embed_content env c) as [e|emb]; [done|].
    destruct (Z.eqb _ _).
    + destruct H as (tail & Ht & _ & Hi & _ & Hc). exists tail.
      split; [|done]. rewrite Ht. simpl. by rewrite <- app_assoc.
    + destruct H as [-> ->]. split; reflexivity.
Qed.

(** C3: The text sent to the embedding provider for a note is the title, a
    blank line, the content and, only when there are tags, a further blank
    line and the line "Tags: " followed by the tags in their order, joined
    by ", ".  With no tags nothing follows the content.  This is the one
    provider call of [generate_note_embedding], and the first thing an
    ingestion does. *)
Theorem note_embedding_text settings env title content tags w :
  (∃ r, GeminiService.generate_note_embedding settings env title content tags w =
        (logged (EvEmbedContent (document_call settings (spec_note_text title content tags))) w, r)) ∧
  (tags = [] → spec_note_text title content tags = title ++ PyStr.nl ++ PyStr.nl ++ content) ∧
  (tags ≠ [] →
   spec_note_text title content tags =
   title ++ PyStr.nl ++ PyStr.nl ++ content
   ++ PyStr.nl ++ PyStr.nl ++ "Tags: " ++ PyStr.join ", " tags) ∧
  (∀ t1 t2 rest, PyStr.join ", " (t1 :: t2 :: rest) = t1 ++ ", " ++ PyStr.join ", " (t2 :: rest)) ∧
  (∀ t, PyStr.join ", " [t] = t) ∧
  (∀ note, NoteCreate.title note = title → NoteCreate.content note = content →
     NoteCreate.tags note = tags →
     ∃ w' r tail, Routes.create_note settings env note w = (w', r) ∧
       trace w' = (trace w ++ EvEmbedContent
                     (document_call settings (spec_note_text title content tags)) :: tail)%list ∧
       embed_calls tail = []).
Proof.
  split; [|split; [|split; [|split; [|split]]]].
  - rewrite generate_note_embedding_spec, generate_embedding_spec. eauto.
  - intros ->. unfold spec_note_text. by rewrite string_app_nil_r.
  - intros Ht. unfold spec_note_text. by destruct tags.
  - done.
  - done.
  - intros note <- <- <-.
    destruct (route_create_note_cases settings env note w) as (w' & r & Hrun & H).
    exists w', r. unfold ingest_call in H.
    destruct (checked _ _ _).
    + destruct H as [-> ->]. by exists [].
    + destruct H as (tail & Ht & He & _). eexists. split; [done|].
      rewrite Ht. simpl. rewrite <- app_assoc. split; [done|]. done.
Qed.

(** C4: A request to create a note whose title or content is empty or made
    of whitespace only is rejected with a validation error, and nothing
    else happens: the world after the request is the world before it, so
    no document was written and neither the provider nor the store was
    called. *)
Theorem blank_note_rejected settings env b w :
  (∃ t, NoteCreate.body_title b = Some t ∧ PyStr.all_space t = true) ∨
  (∃ c, NoteCreate.body_content b = Some c ∧ PyStr.all_space c = true) →
  ∃ msg, Routes.post_notes settings env b w = (w, inl (Exn RequestValidationC msg)).
Proof.
  intros Hblank.
  assert (∃ e, NoteCreate.validate b = inl e) as [e He].
  { unfold NoteCreate.validate. cbv zeta.
    destruct Hblank as [(t & Ht & Hs) | (c & Hc & Hs)].
    - destruct (blank_field_rejected "title" (Some 500%Z) NoteCreate.validate_title
                  "Title cannot be empty" _ t Ht Hs) as [e ->]; [done|]. eauto.
    - destruct (blank_field_rejected "content" None NoteCreate.validate_content
                  "Content cannot be empty" _ c Hc Hs) as [e ->]; [done|].
      destruct (and_then _ _); eauto. }
  unfold Routes.post_notes, Routes.request_validation, bind. rewrite He.
  unfold raise. eauto.
Qed.

(** C5: The limit of a search is kept within 1 to 50 by one policy, which is
    rejection: a request whose limit is 0, negative or above 50 fails
    validation and nothing is sent anywhere; a request that passes carries
    the caller's limit unchanged (10 when none was given), which lies
    between 1 and 50; and every vector search a request sends to the store
    has that limit. *)
Theorem search_limit_within_range settings env b w :
  (∀ n, SearchQuery.body_limit b = Some n → (n < 1 ∨ 50 < n)%Z →
     ∃ msg, Routes.post_search settings env b w = (w, inl (Exn RequestValidationC msg))) ∧
  (∀ query, SearchQuery.validate b = inr query →
     SearchQuery.limit query = default 10%Z (SearchQuery.body_limit b) ∧
     (1 ≤ SearchQuery.limit query ≤ 50)%Z) ∧
  (∃ w' r evs,
     Routes.post_search settings env b w = (w', r) ∧
     trace w' = (trace w ++ evs)%list ∧
     Forall (λ spec, Mongo.limit spec = default 10%Z (SearchQuery.body_limit b) ∧
                     (1 ≤ Mongo.limit spec ≤ 50)%Z)
       (searches evs)).
Proof.
  split; [|split].
  - intros n Hn Hout. unfold Routes.post_search, Routes.request_validation, bind.
    assert (∃ e, SearchQuery.validate b = inl e) as [e ->]; [|unfold raise; eauto].
    unfold SearchQuery.validate. cbv zeta. rewrite Hn.
    assert (∃ e, SearchQuery.limit_field (Some n) = inl e) as [e ->].
    { unfold SearchQuery.limit_field.
      destruct (Z.ltb_spec n 1); [eauto|]. destruct (Z.ltb_spec 50 n); [eauto|]. lia. }
    destruct (and_then _ _); destruct (str_field _ _ _ _); eauto.
  - apply validate_query_limit.
  - unfold Routes.post_search, Routes.request_validation, bind.
    destruct (SearchQuery.validate b) as [e|query] eqn:Hv.
    { unfold raise. exists w, (inl (Exn RequestValidationC (py_str e))), [].
      rewrite app_nil_r. split; [done|]. split; [done|]. constructor. }
    apply validate_query_limit in Hv as [Hl Hr]. unfold ret.
    destruct (search_notes_world settings env query w) as (w' & r & -> & _ & H).
    exists w', r. destruct H as [Ht | [q_emb Ht]]; eexists; (split; [done|]);
      (split; [exact Ht|]); simpl; repeat constructor; simpl; lia.
Qed.

(** C6: A search with limit [k] that returns has [k] at least 1 and at most
    [k] results; their scores never increase along the list; and the
    results are, position by position, the documents the store answered to
    the query: result [i] shows the identifier, as a string, the title,
    content, user, tags and times and the score of document [i], so that
    none was dropped, moved or changed.  In terms of the collection, the
    store answered the first [k] of the user's notes, the most similar to
    the query vector first, and the response holds these notes with their
    similarities, in that order.  A search does return when the provider
    returns a vector of the configured length, [k] is within 1 and the
    number of candidates, and the store answers. *)
Theorem search_results_in_store_order settings env query w :
  let k := SearchQuery.limit query in
  (∀ w' resp,
  Routes.search_notes settings env query w = (w', inr resp) →
  (1 ≤ k)%Z ∧
  (length (SearchResponse.results resp) ≤ Z.to_nat k)%nat ∧
  SearchResponse.count resp = Z.of_nat (length (SearchResponse.results resp)) ∧
  StronglySorted (λ a b, (SearchResult.score b <= SearchResult.score a)%Q)
    (SearchResponse.results resp) ∧
  ∃ q_emb store_out,
    embed_content env (query_call settings (SearchQuery.query query)) = inr q_emb ∧
    Mongo.eval_aggregate (similarity env)
      (MongoDBService.vector_search_pipeline settings q_emb (SearchQuery.user_id query) k)
      (collection w) = inr store_out ∧
    Forall2 (λ d r, ∃ d', stringify_id d = inr d' ∧ Routes.format_result d' = inr r)
      store_out (SearchResponse.results resp) ∧
    Forall2 result_shows store_out (SearchResponse.results resp) ∧
    ∃ ns,
      ns ≡ₚ notes_of (SearchQuery.user_id query) (collection w) ∧
      StronglySorted (λ a b, (similarity env q_emb (NoteDoc.embedding (stored_doc b))
                              <= similarity env q_emb (NoteDoc.embedding (stored_doc a)))%Q)
        ns ∧
      store_out
      = (λ n, answered_doc n (similarity env q_emb (NoteDoc.embedding (stored_doc n))))
          <$> take (Z.to_nat k) ns ∧
      SearchResponse.results resp
      = (λ n, {| SearchResult.note := response_of n;
                 SearchResult.score :=
                   similarity env q_emb (NoteDoc.embedding (stored_doc n)) |})
          <$> take (Z.to_nat k) ns) ∧
  (∀ q_emb,
     embed_content env (query_call settings (SearchQuery.query query)) = inr q_emb →
     Z.of_nat (length q_emb) = gemini_embedding_dimensions settings →
     (1 ≤ k ≤ vector_search_num_candidates settings)%Z →
     store_fault env OpAggregate = None →
     ∃ w' resp, Routes.search_notes settings env query w = (w', inr resp)).
Proof.
  intros k. split; [|intros q_emb; by apply search_notes_total].
  intros w' resp Hrun.
  pose proof (search_notes_returns _ _ _ _ _ _ Hrun) as (q0 & _ & Hk & _ & _ & Hcount & _).
  apply search_notes_returns_exact in Hrun as (q_emb & ns & Hc & Hp & Hs & Hout & Hres).
  fold k in Hk, Hout, Hres.
  split; [lia|]. split.
  { rewrite Hres, length_fmap, length_take. lia. }
  split; [done|]. split.
  { rewrite Hres. eapply StronglySorted_fmap; [|apply StronglySorted_take, Hs].
    intros a b Hab. exact Hab. }
  exists q_emb. eexists. split; [exact Hc|]. split; [exact Hout|].
  rewrite Hres. split; [|split].
  - apply Forall2_fmap_same. intros n.
    exists (hit_doc n (similarity env q_emb (NoteDoc.embedding (stored_doc n)))).
    split; [apply stringify_projected|apply format_hit].
  - apply Forall2_fmap_same. intros n. apply answered_doc_shows.
  - by exists ns.
Qed.

(** C7: A listing that returns has returned records of the requested user
    only, none of which has an embedding field, the most recently updated
    first, and at most [limit] of them.  The records are the first [limit]
    of all the notes of the user in that order: record [i] shows the
    identifier, as a string, and the title, content, user, tags and times
    of note [i], and their number is the limit or the number of the user's
    notes, whichever is less.  A listing returns when the limit is not
    negative, fits in 8 bytes and the store answers; a negative limit and a
    limit beyond 8 bytes are refused before the store is asked. *)
Theorem list_notes_of_user env user_id limit w :
  (∀ w' notes,
     MongoDBService.list_notes env user_id limit w = (w', inr notes) →
     Forall (λ d, d !! "user_id" = Some (VStr user_id) ∧ d !! "embedding" = None) notes ∧
     (Z.of_nat (length notes) ≤ limit)%Z ∧
     StronglySorted (λ a b, ∃ ta tb, a !! "updated_at" = Some (VDate ta) ∧
                                     b !! "updated_at" = Some (VDate tb) ∧ (tb ≤ ta)%Z) notes ∧
     length notes
     = Nat.min (Z.to_nat limit) (length (notes_of user_id (collection w))) ∧
     ∃ ns,
       ns ≡ₚ notes_of user_id (collection w) ∧
       StronglySorted (λ a b, (NoteDoc.updated_at (stored_doc b)
                               ≤ NoteDoc.updated_at (stored_doc a))%Z) ns ∧
       notes = listed_doc <$> take (Z.to_nat limit) ns ∧
       Forall2 record_shows notes (take (Z.to_nat limit) ns)) ∧
  ((0 ≤ limit ≤ Bson.int64_max)%Z → store_fault env OpFind = None →
   ∃ w' notes, MongoDBService.list_notes env user_id limit w = (w', inr notes)) ∧
  ((limit < 0)%Z →
   MongoDBService.list_notes env user_id limit w
   = (w, inl (Exn ValueErrorC "length must be non-negative"))) ∧
  ((Bson.int64_max < limit)%Z →
   MongoDBService.list_notes env user_id limit w
   = (w, inl (Exn OverflowErrorC "MongoDB can only handle up to 8-byte ints"))).
Proof.
  split; [|split; [|split]].
  - intros w' notes Hrun.
    pose proof (list_notes_returns _ _ _ _ _ _ Hrun)
      as (Hlim & _ & ns0 & Hn0 & Hlen & Hall & Hs0).
    apply list_notes_returns_exact in Hrun as (_ & ns & Hp & Hs & Hn).
    split; [|split; [|split; [|split]]].
    + rewrite Hn0. apply Forall_fmap. eapply Forall_impl; [exact Hall|].
      intros n [_ <-]. done.
    + rewrite Hn0, length_fmap. lia.
    + rewrite Hn0. eapply StronglySorted_fmap; [|exact Hs0].
      intros a b Hab. by eexists _, _.
    + by rewrite Hn, length_fmap, length_take, Hp.
    + exists ns. split; [done|]. split; [done|]. split; [done|].
      rewrite Hn. apply Forall2_fmap_l, Forall_Forall2_diag, Forall_forall.
      intros n _. apply listed_doc_shows.
  - intros Hlim Hf. rewrite list_notes_spec. cbv zeta.
    destruct (Z.ltb_spec limit 0); [lia|].
    destruct (Z.ltb_spec Bson.int64_max limit); [lia|]. rewrite Hf.
    unfold Mongo.eval_find. cbn [Mongo.find_filter Mongo.find_sort Mongo.find_limit
      Mongo.find_exclude fst snd].
    rewrite find_by_user.
    destruct (sorted_by_user user_id (collection w)) as (ns & -> & _).
    assert (Mongo.apply_limit limit (Mongo.to_document <$> ns) =
            Mongo.to_document <$> Mongo.apply_limit limit ns) as ->.
    { unfold Mongo.apply_limit. destruct (limit =? 0)%Z; [done|]. by rewrite fmap_take. }
    rewrite <- !fmap_take, <- list_fmap_compose.
    rewrite (for_each_fmap_total _ _ listed_doc); [eauto|].
    intros n. apply stringify_excluded.
  - intros Hlim. rewrite list_notes_spec. cbv zeta.
    by destruct (Z.ltb_spec limit 0); [|lia].
  - intros Hlim. rewrite list_notes_spec. cbv zeta.
    destruct (Z.ltb_spec limit 0); [unfold Bson.int64_max in Hlim; lia|].
    by destruct (Z.ltb_spec Bson.int64_max limit); [|lia].
Qed.

(** C8: An ingestion calls the embedding provider once, in document mode
    and with the text of the note; a search calls it once, in query mode and
    with the query text; a listing does not call it.  The two mode tags are
    different, so no note is embedded in query mode and no query in document
    mode. *)
Theorem embedding_modes_kept_apart settings env w :
  (∀ note, ∃ w' r c,
     Routes.create_note settings env note w = (w', r) ∧
     embed_calls (trace w') = (embed_calls (trace w) ++ [c])%list ∧
     task_type c = "retrieval_document" ∧
     content c = spec_note_text (NoteCreate.title note) (NoteCreate.content note)
                   (NoteCreate.tags note)) ∧
  (∀ query, ∃ w' r c,
     Routes.search_notes settings env query w = (w', r) ∧
     embed_calls (trace w') = (embed_calls (trace w) ++ [c])%list ∧
     task_type c = "retrieval_query" ∧
     content c = SearchQuery.query query) ∧
  (∀ user_id limit, ∃ w' r,
     Routes.list_user_notes env user_id limit w = (w', r) ∧
     embed_calls (trace w') = embed_calls (trace w)) ∧
  "retrieval_document" ≠ "retrieval_query".
Proof.
  split; [|split; [|split]]; [| | |done].
  - intros note.
    destruct (route_create_note_cases settings env note w) as (w' & r & Hrun & H).
    exists w', r, (ingest_call settings note). split; [done|].
    split; [|done].
    destruct (checked _ _ _).
    + destruct H as [-> _]. simpl. by rewrite embed_calls_app.
    + destruct H as (tail & Ht & He & _). rewrite Ht. simpl.
      rewrite !embed_calls_app. simpl. rewrite He. by rewrite app_nil_r.
  - intros query.
    destruct (search_notes_world settings env query w) as (w' & r & Hrun & _ & H).
    exists w', r, (query_call settings (SearchQuery.query query)). split; [done|].
    split; [|done].
    destruct H as [Ht | [q_emb Ht]]; rewrite Ht; by rewrite embed_calls_app.
  - intros user_id limit.
    destruct (list_user_notes_world env user_id limit w)
      as (w' & r & Hrun & _ & evs & Ht & He & _).
    exists w', r. split; [done|]. rewrite Ht, embed_calls_app, He. by rewrite app_nil_r.
Qed.

(** C9: A note written by [create_note] and read back by [get_note] under
    the identifier the write returned, before any other write, has the
    title, content, tags (the same list) and user that were written, both
    timestamps equal to the one time of creation, and the embedding that
    was written; the read leaves the collection as it is.  An ingestion of
    these fields, when the provider returns that embedding, stores the same
    note under the same identifier, and answers with these fields. *)
Theorem create_then_get_round_trip env env' title content user_id tags embedding w :
  store_fault env OpInsertOne = None →
  store_fault env' OpFindOne = None →
  length (new_object_id env) = 12%nat →
  new_object_id env ∉ (stored_id <$> collection w) →
  ∃ w1 note_id d,
    MongoDBService.create_note env title content user_id tags embedding w
      = (w1, inr note_id) ∧
    (∀ w1', collection w1' = collection w1 →
       ∃ w2, MongoDBService.get_note env' note_id w1' = (w2, inr (Some d)) ∧
             collection w2 = collection w1') ∧
    d !! "_id" = Some (VStr note_id) ∧
    d !! "title" = Some (VStr title) ∧
    d !! "content" = Some (VStr content) ∧
    d !! "tags" = Some (VList tags) ∧
    d !! "user_id" = Some (VStr user_id) ∧
    d !! "created_at" = Some (VDate (utcnow env)) ∧
    d !! "updated_at" = Some (VDate (utcnow env)) ∧
    d !! "embedding" = Some (VVec embedding) ∧
    (∀ settings note,
       NoteCreate.title note = title → NoteCreate.content note = content →
       NoteCreate.user_id note = user_id → NoteCreate.tags note = tags →
       embed_content env (ingest_call settings note) = inr embedding →
       Z.of_nat (length embedding) = gemini_embedding_dimensions settings →
       store_fault env OpFindOne = None →
       ∃ w1' resp,
         Routes.create_note settings env note w = (w1', inr resp) ∧
         collection w1' = collection w1 ∧
         NoteResponse.id resp = note_id ∧
         NoteResponse.title resp = title ∧
         NoteResponse.content resp = content ∧
         NoteResponse.tags resp = tags ∧
         NoteResponse.user_id resp = user_id ∧
         NoteResponse.created_at resp = utcnow env ∧
         NoteResponse.updated_at resp = utcnow env).
Proof.
  intros Hins Hfind Hlen Hfresh.
  rewrite create_note_spec. cbv zeta. rewrite Hins.
  rewrite bool_decide_eq_false_2 by done.
  set (d := new_note_doc env title content user_id tags embedding).
  set (n := {| stored_id := new_object_id env; stored_doc := d |}).
  eexists _, _, (fetched_doc n). split; [reflexivity|]. split; [|repeat split].
  2:{ intros settings note <- <- <- <- He Hd Hfind'.
      destruct (ingest_returns_stored_note settings env note embedding w)
        as (w1' & Hrun & Hcoll); try done.
      eexists _, _. split; [exact Hrun|]. by repeat split. }
  intros w1' Hcoll. rewrite get_note_spec, ObjectId_of_str_str, Hfind by done.
  destruct w1' as [coll' tr']. simpl in Hcoll. subst coll' n.
  rewrite find_by_id_last by done.
  rewrite bool_decide_eq_true_2 by apply to_document_nonempty.
  rewrite stringify_document. eexists. split; [reflexivity|done].
Qed.

(** C10: [get_note] never raises: on every string and whatever the store
    does it returns a document or None, and leaves the collection as it is.
    It returns None for a string that is no identifier, without asking the
    store; it returns None when the store fails; and it returns None when
    no note has the identifier.  A failure of the store and an absent note
    give the same result and the same trace, so the caller cannot tell
    one from the other. *)
Theorem get_note_never_raises env note_id w :
  (∃ w' r, MongoDBService.get_note env note_id w = (w', inr r) ∧
           collection w' = collection w) ∧
  ((∀ oid, Bson.ObjectId_of_str note_id ≠ inr oid) →
   MongoDBService.get_note env note_id w = (w, inr None)) ∧
  (∀ e, store_fault env OpFindOne = Some e →
   ∃ w', MongoDBService.get_note env note_id w = (w', inr None)) ∧
  (∀ oid, Bson.ObjectId_of_str note_id = inr oid →
          oid ∉ (stored_id <$> collection w) →
   ∃ w', MongoDBService.get_note env note_id w = (w', inr None)) ∧
  (∀ env' oid e,
     Bson.ObjectId_of_str note_id = inr oid →
     oid ∉ (stored_id <$> collection w) →
     store_fault env OpFindOne = Some e →
     store_fault env' OpFindOne = None →
     MongoDBService.get_note env note_id w = MongoDBService.get_note env' note_id w).
Proof.
  rewrite !get_note_spec. split; [|split; [|split; [|split]]].
  - destruct (Bson.ObjectId_of_str note_id); eauto.
  - intros Hbad. destruct (Bson.ObjectId_of_str note_id) as [|oid]; [done|].
    by destruct (Hbad oid).
  - intros e He. rewrite He. destruct (Bson.ObjectId_of_str note_id); eauto.
  - intros oid -> Habs. rewrite find_by_id_absent by done.
    destruct (store_fault env OpFindOne); eauto.
  - intros env' oid e Hoid Habs He He'.
    rewrite get_note_spec, Hoid, He, He', find_by_id_absent by done. done.
Qed.

(** * The claims at work on the example deployment *)

(** C1 on the example: the note of [u2] is the nearest to the query, and a
    search for [u1] with limit 1 still returns one note, of [u1]. *)
Lemma vector_search_scoped_to_user_witness :
  (1 ≤ 1 ≤ vector_search_num_candidates Example.settings3)%Z ∧
  store_fault Example.env OpAggregate = None ∧
  ∃ w' results,
    MongoDBService.vector_search Example.settings3 Example.env [1; 0; 0]%Q "u1" 1
      Example.world = (w', inr results) ∧
    Forall (λ d, d !! "user_id" = Some (VStr "u1")) results ∧
    length results
    = Nat.min (Z.to_nat 1) (length (notes_of "u1" (collection Example.world))) ∧
    ∃ w'' resp,
      Routes.search_notes Example.settings3 Example.env (Example.temples "u1" 1)
        Example.world = (w'', inr resp) ∧
      Forall (λ r, NoteResponse.user_id (SearchResult.note r) = "u1")
        (SearchResponse.results resp).
Proof.
  destruct (vector_search_scoped_to_user Example.settings3 Example.env [1; 0; 0]%Q "u1" 1
              Example.world) as (_ & Hret & Hroute & Htot).
  assert ((1 ≤ 1 ≤ vector_search_num_candidates Example.settings3)%Z) as Hlim
    by (simpl; lia).
  assert (store_fault Example.env OpAggregate = None) as Hf by reflexivity.
  destruct (Htot Hlim Hf) as (w' & results & Hrun).
  split; [exact Hlim|]. split; [exact Hf|].
  exists w', results. split; [exact Hrun|].
  destruct (Hret w' results Hrun) as [Hall Hlen].
  split; [exact Hall|]. split; [exact Hlen|].
  destruct (Routes.search_notes Example.settings3 Example.env (Example.temples "u1" 1)
              Example.world) as [w'' [e|resp]] eqn:Hsearch;
    [vm_compute in Hsearch; discriminate|].
  exists w'', resp. split; [reflexivity|].
  exact (Hroute (Example.temples "u1" 1) w'' resp eq_refl Hsearch).
Defined.

(** C2 on the example: with the default 768 dimensions, the three
    coordinates the example provider returns stop the ingestion before any
    write. *)
Lemma persisted_notes_carry_embedding_witness :
  ∃ w' r,
    Routes.create_note default_settings Example.env Example.osaka Example.world = (w', r) ∧
    w' = logged (EvEmbedContent (ingest_call default_settings Example.osaka)) Example.world ∧
    r = inl (HTTPException 500
               ("Failed to create note: Failed to generate embedding: "
                ++ "Expected 768 dimensions, got 3")).
Proof.
  destruct (persisted_notes_carry_embedding default_settings) as (_ & _ & H).
  destruct (H Example.env Example.osaka Example.world) as (w' & r & Hrun & Hw & Hr).
  exists w', r. split; [exact Hrun|]. split; [exact Hw|exact Hr].
Defined.

(** C3 on the example: a note with two tags and a note with none. *)
Lemma note_embedding_text_witness :
  ["travel"; "food"] ≠ [] ∧
  spec_note_text "Osaka" "Street food." ["travel"; "food"]
  = "Osaka" ++ PyStr.nl ++ PyStr.nl ++ "Street food."
    ++ PyStr.nl ++ PyStr.nl ++ "Tags: travel, food" ∧
  spec_note_text "Osaka" "Street food." [] = "Osaka" ++ PyStr.nl ++ PyStr.nl ++ "Street food." ∧
  ∃ w' r tail,
    Routes.create_note Example.settings3 Example.env Example.osaka Example.world = (w', r) ∧
    trace w' = (trace Example.world ++ EvEmbedContent
                  (document_call Example.settings3
                     (spec_note_text "Osaka" "Street food." ["travel"; "food"])) :: tail)%list ∧
    embed_calls tail = [].
Proof.
  assert (["travel"; "food"] ≠ ([] : list string)) as Hne by discriminate.
  split; [exact Hne|]. split; [|split].
  - exact (proj1 (proj2 (proj2 (note_embedding_text Example.settings3 Example.env
             "Osaka" "Street food." ["travel"; "food"] Example.world))) Hne).
  - exact (proj1 (proj2 (note_embedding_text Example.settings3 Example.env
             "Osaka" "Street food." [] Example.world)) eq_refl).
  - exact (proj2 (proj2 (proj2 (proj2 (proj2 (note_embedding_text Example.settings3
             Example.env "Osaka" "Street food." ["travel"; "food"] Example.world)))))
             Example.osaka eq_refl eq_refl eq_refl).
Defined.

(** C4 on the example: a title of three spaces. *)
Lemma blank_note_rejected_witness :
  ((∃ t, NoteCreate.body_title Example.blank_body = Some t ∧ PyStr.all_space t = true) ∨
   (∃ c, NoteCreate.body_content Example.blank_body = Some c ∧ PyStr.all_space c = true)) ∧
  ∃ msg, Routes.post_notes Example.settings3 Example.env Example.blank_body Example.world
         = (Example.world, inl (Exn RequestValidationC msg)).
Proof.
  assert ((∃ t, NoteCreate.body_title Example.blank_body = Some t ∧ PyStr.all_space t = true) ∨
          (∃ c, NoteCreate.body_content Example.blank_body = Some c
                ∧ PyStr.all_space c = true)) as Hblank.
  { left. exists "   ". split; reflexivity. }
  split; [exact Hblank|].
  exact (blank_note_rejected Example.settings3 Example.env Example.blank_body Example.world
           Hblank).
Defined.

(** C5 on the example: a limit of 0 is rejected, a limit of 5 is kept. *)
Lemma search_limit_within_range_witness :
  (∃ msg, Routes.post_search Example.settings3 Example.env
            (Example.temples_body "u1" (Some 0%Z)) Example.world
          = (Example.world, inl (Exn RequestValidationC msg))) ∧
  SearchQuery.validate (Example.temples_body "u1" (Some 5%Z)) = inr (Example.temples "u1" 5) ∧
  SearchQuery.limit (Example.temples "u1" 5) = 5%Z ∧
  (1 ≤ SearchQuery.limit (Example.temples "u1" 5) ≤ 50)%Z.
Proof.
  assert (SearchQuery.validate (Example.temples_body "u1" (Some 5%Z))
          = inr (Example.temples "u1" 5)) as Hv by reflexivity.
  split; [|split; [exact Hv|]].
  - refine (proj1 (search_limit_within_range Example.settings3 Example.env
              (Example.temples_body "u1" (Some 0%Z)) Example.world) 0%Z eq_refl _).
    left. reflexivity.
  - exact (proj1 (proj2 (search_limit_within_range Example.settings3 Example.env
              (Example.temples_body "u1" (Some 5%Z)) Example.world)) _ Hv).
Defined.

(** C6 on the example: a search of [u1] for temples, limit 5, answers the
    two notes of [u1], each result showing the document of the store at
    its position. *)
Lemma search_results_in_store_order_witness :
  ∃ w' resp store_out ns,
    Routes.search_notes Example.settings3 Example.env (Example.temples "u1" 5) Example.world
    = (w', inr resp) ∧
    (length (SearchResponse.results resp) ≤ Z.to_nat 5)%nat ∧
    StronglySorted (λ a b, (SearchResult.score b <= SearchResult.score a)%Q)
      (SearchResponse.results resp) ∧
    Mongo.eval_aggregate Example.dot
      (MongoDBService.vector_search_pipeline Example.settings3 [1; 0; 0]%Q "u1" 5)
      (collection Example.world) = inr store_out ∧
    Forall2 result_shows store_out (SearchResponse.results resp) ∧
    ns ≡ₚ [Example.kyoto; Example.groceries] ∧
    SearchResponse.results resp
    = (λ n, {| SearchResult.note := response_of n;
               SearchResult.score :=
                 Example.dot [1; 0; 0]%Q (NoteDoc.embedding (stored_doc n)) |})
        <$> take 5 ns.
Proof.
  destruct (search_results_in_store_order Example.settings3 Example.env
              (Example.temples "u1" 5) Example.world) as [Hret Htot].
  destruct (Htot [1; 0; 0]%Q) as (w' & resp & Hrun);
    [reflexivity | reflexivity | simpl; lia | reflexivity |].
  destruct (Hret w' resp Hrun)
    as (_ & Hlen & _ & Hs & q_emb & store_out & Hq & Hout & _ & Hshows & ns & Hp & _ & _ & Hres).
  assert (q_emb = [1; 0; 0]%Q) as -> by (vm_compute in Hq; congruence).
  exists w', resp, store_out, ns. split; [exact Hrun|].
  split; [exact Hlen|]. split; [exact Hs|]. split; [exact Hout|].
  split; [exact Hshows|]. split; [exact Hp|exact Hres].
Defined.

(** C7 on the example: the two notes of [u1] are listed with the limit 2,
    and a limit of 2^63 is refused before the store is asked. *)
Lemma list_notes_of_user_witness :
  (0 ≤ 2 ≤ Bson.int64_max)%Z ∧ store_fault Example.env OpFind = None ∧
  (Bson.int64_max < 2 ^ 63)%Z ∧
  (∃ w' notes ns,
     MongoDBService.list_notes Example.env "u1" 2 Example.world = (w', inr notes) ∧
     Forall (λ d, d !! "user_id" = Some (VStr "u1") ∧ d !! "embedding" = None) notes ∧
     (Z.of_nat (length notes) ≤ 2)%Z ∧
     length notes = 2%nat ∧
     ns ≡ₚ [Example.kyoto; Example.groceries] ∧
     Forall2 record_shows notes (take 2 ns)) ∧
  MongoDBService.list_notes Example.env "u1" (2 ^ 63) Example.world
  = (Example.world, inl (Exn OverflowErrorC "MongoDB can only handle up to 8-byte ints")).
Proof.
  destruct (list_notes_of_user Example.env "u1" 2 Example.world) as (Hret & Htot & _ & _).
  destruct (list_notes_of_user Example.env "u1" (2 ^ 63) Example.world) as (_ & _ & _ & Hover).
  assert ((0 ≤ 2 ≤ Bson.int64_max)%Z) as Hlim by (unfold Bson.int64_max; lia).
  assert (store_fault Example.env OpFind = None) as Hf by reflexivity.
  assert ((Bson.int64_max < 2 ^ 63)%Z) as Hbig by reflexivity.
  destruct (Htot Hlim Hf) as (w' & notes & Hrun).
  split; [exact Hlim|]. split; [exact Hf|]. split; [exact Hbig|].
  split; [|exact (Hover Hbig)].
  destruct (Hret w' notes Hrun) as (Hall & Hlen & _ & Hcount & ns & Hp & _ & _ & Hshows).
  exists w', notes, ns. split; [exact Hrun|].
  split; [exact Hall|]. split; [exact Hlen|]. split; [exact Hcount|].
  split; [exact Hp|exact Hshows].
Defined.

(** C8 on the example: one ingestion and one search. *)
Lemma embedding_modes_kept_apart_witness :
  (∃ w' r c,
     Routes.create_note Example.settings3 Example.env Example.osaka Example.world = (w', r) ∧
     embed_calls (trace w') = (embed_calls (trace Example.world) ++ [c])%list ∧
     task_type c = "retrieval_document") ∧
  (∃ w' r c,
     Routes.search_notes Example.settings3 Example.env (Example.temples "u1" 5) Example.world
     = (w', r) ∧
     embed_calls (trace w') = (embed_calls (trace Example.world) ++ [c])%list ∧
     task_type c = "retrieval_query").
Proof.
  destruct (embedding_modes_kept_apart Example.settings3 Example.env Example.world)
    as (Hdoc & Hquery & _).
  split.
  - destruct (Hdoc Example.osaka) as (w' & r & c & Hrun & Hcalls & Hmode & _).
    exists w', r, c. split; [exact Hrun|]. split; [exact Hcalls|exact Hmode].
  - destruct (Hquery (Example.temples "u1" 5)) as (w' & r & c & Hrun & Hcalls & Hmode & _).
    exists w', r, c. split; [exact Hrun|]. split; [exact Hcalls|exact Hmode].
Defined.

(** C9 on the example: the note about Osaka, written and read back. *)
Lemma create_then_get_round_trip_witness :
  store_fault Example.env OpInsertOne = None ∧
  store_fault Example.env OpFindOne = None ∧
  length (new_object_id Example.env) = 12%nat ∧
  (new_object_id Example.env ∉ stored_id <$> collection Example.world) ∧
  ∃ w1 note_id d,
    MongoDBService.create_note Example.env "Osaka" "Street food." "u1" ["travel"; "food"]
      [1 # 2; 1 # 2; 0]%Q Example.world = (w1, inr note_id) ∧
    (∃ w2, MongoDBService.get_note Example.env note_id w1 = (w2, inr (Some d))) ∧
    d !! "title" = Some (VStr "Osaka") ∧
    d !! "tags" = Some (VList ["travel"; "food"]) ∧
    d !! "created_at" = d !! "updated_at" ∧
    ∃ w1' resp,
      Routes.create_note Example.settings3 Example.env Example.osaka Example.world
      = (w1', inr resp) ∧
      collection w1' = collection w1 ∧ NoteResponse.id resp = note_id.
Proof.
  assert (store_fault Example.env OpInsertOne = None) as Hins by reflexivity.
  assert (store_fault Example.env OpFindOne = None) as Hfind by reflexivity.
  assert (length (new_object_id Example.env) = 12%nat) as Hlen by reflexivity.
  assert (new_object_id Example.env ∉ (stored_id <$> collection Example.world)) as Hfresh.
  { apply (bool_decide_unpack _). vm_compute. exact I. }
  repeat (split; [assumption|]).
  destruct (create_then_get_round_trip Example.env Example.env "Osaka" "Street food." "u1"
              ["travel"; "food"] [1 # 2; 1 # 2; 0]%Q Example.world Hins Hfind Hlen Hfresh)
    as (w1 & note_id & d & Hrun & Hget & _ & Ht & _ & Htags & _ & Hc & Hu & _ & Hroute).
  exists w1, note_id, d. split; [exact Hrun|]. split.
  - destruct (Hget w1 eq_refl) as (w2 & Hg & _). exists w2. exact Hg.
  - split; [exact Ht|]. split; [exact Htags|]. split; [rewrite Hc, Hu; reflexivity|].
    destruct (Hroute Example.settings3 Example.osaka eq_refl eq_refl eq_refl eq_refl
                eq_refl eq_refl Hfind) as (w1' & resp & Hr & Hcoll & Hid & _).
    exists w1', resp. split; [exact Hr|]. split; [exact Hcoll|exact Hid].
Defined.

(** C10 on the example: a string that is no identifier, a store that does
    not answer, and an identifier no note has. *)
Lemma get_note_never_raises_witness :
  MongoDBService.get_note Example.env "not-an-id" Example.world
  = (Example.world, inr None) ∧
  (∃ w', MongoDBService.get_note Example.env_store_down
           (Bson.ObjectId_str (Example.oid "1")) Example.world = (w', inr None)) ∧
  (∃ w', MongoDBService.get_note Example.env
           (Bson.ObjectId_str (Example.oid "9")) Example.world = (w', inr None)) ∧
  MongoDBService.get_note Example.env_store_down
    (Bson.ObjectId_str (Example.oid "9")) Example.world
  = MongoDBService.get_note Example.env
      (Bson.ObjectId_str (Example.oid "9")) Example.world.
Proof.
  split; [|split; [|split]].
  - refine (proj1 (proj2 (get_note_never_raises Example.env "not-an-id" Example.world)) _).
    intros oid. discriminate.
  - exact (proj1 (proj2 (proj2 (get_note_never_raises Example.env_store_down
             (Bson.ObjectId_str (Example.oid "1")) Example.world)))
             (Exn StoreErrorC "connection refused") eq_refl).
  - refine (proj1 (proj2 (proj2 (proj2 (get_note_never_raises Example.env
             (Bson.ObjectId_str (Example.oid "9")) Example.world))))
             (Example.oid "9") eq_refl _).
    apply (bool_decide_unpack _). vm_compute. exact I.
  - refine (proj2 (proj2 (proj2 (proj2 (get_note_never_raises Example.env_store_down
             (Bson.ObjectId_str (Example.oid "9")) Example.world))))
             Example.env (Example.oid "9") (Exn StoreErrorC "connection refused")
             eq_refl _ eq_refl eq_refl).
    apply (bool_decide_unpack _). vm_compute. exact I.
Defined.

(** * Examples *)

Example strip_keeps_inner_spaces : PyStr.strip "  ab c  " = "ab c".
Proof. reflexivity. Qed.

Example strip_of_blank : PyStr.strip (String "009" (String "160" " ")) = "".
Proof. reflexivity. Qed.

Example identifier_as_string :
  Bson.ObjectId_str (Example.oid "1") = "313131313131313131313131" ∧
  Bson.ObjectId_of_str "313131313131313131313131" = inr (Example.oid "1") ∧
  Bson.ObjectId_of_str "3131" =
    inl (Exn InvalidIdC
           "'3131' is not a valid ObjectId, it must be a 12-byte input or a 24-character hex string").
Proof. repeat split. Qed.

(** Ingesting a note whose title has spaces around it: the stored title is
    stripped, the text embedded has the line of tags, and the response
    carries the identifier and one timestamp twice. *)
Example ingest_osaka :
  ∃ w',
    Routes.post_notes Example.settings3 Example.env Example.osaka_body Example.world
    = (w', inr {| NoteResponse.id := "343434343434343434343434";
                  NoteResponse.title := "Osaka";
                  NoteResponse.content := "Street food.";
                  NoteResponse.user_id := "u1";
                  NoteResponse.tags := ["travel"; "food"];
                  NoteResponse.created_at := 4000;
                  NoteResponse.updated_at := 4000 |}) ∧
    length (collection w') = 4%nat ∧
    embed_calls (trace w') =
      [ {| model := "models/text-embedding-004";
           content := "Osaka" ++ PyStr.nl ++ PyStr.nl ++ "Street food."
                      ++ PyStr.nl ++ PyStr.nl ++ "Tags: travel, food";
           task_type := "retrieval_document";
           title := None |} ].
Proof. eexists. split; [vm_compute; reflexivity|]. split; reflexivity. Qed.

(** With the provider down nothing is written, and the error names the
    provider's failure. *)
Example ingest_with_provider_down :
  Routes.create_note Example.settings3 Example.env_provider_down Example.osaka Example.world
  = (logged (EvEmbedContent (ingest_call Example.settings3 Example.osaka)) Example.world,
     inl (HTTPException 500
            "Failed to create note: Failed to generate embedding: quota exceeded")).
Proof. reflexivity. Qed.

(** A search by a user who has no note returns no result, although the
    collection holds a note that matches the query exactly. *)
Example search_by_stranger :
  ∃ w',
    Routes.search_notes Example.settings3 Example.env (Example.temples "u3" 5) Example.world
    = (w', inr {| SearchResponse.results := [];
                  SearchResponse.query := "temples in Japan";
                  SearchResponse.count := 0;
                  SearchResponse.search_time_ms := (((21 # 2) - 10) * 1000)%Q |}).
Proof. eexists. vm_compute. reflexivity. Qed.

(** A search of [u1] finds the note about Kyoto first, with a positive
    score, and never the nearer note of [u2]. *)
Example search_by_owner :
  ∃ w' resp,
    Routes.search_notes Example.settings3 Example.env (Example.temples "u1" 5) Example.world
    = (w', inr resp) ∧
    (NoteResponse.title ∘ SearchResult.note) <$> SearchResponse.results resp
    = ["Trip to Kyoto"; "Groceries"] ∧
    Qle_bool 0 <$> (SearchResult.score <$> SearchResponse.results resp) = [true; true].
Proof. eexists _, _. split; [vm_compute; reflexivity|]. split; reflexivity. Qed.

(** Why the filter sits inside the search: with limit 1 the unfiltered
    search keeps the note of [u2] only, and a filter placed after it is left
    with nothing, while the pipeline of the code returns the note of [u1]. *)
Example post_filter_loses_results :
  Mongo.eval_aggregate Example.dot
    (post_filter_pipeline Example.settings3 [1; 0; 0]%Q "u1" 1) (collection Example.world)
  = inr [] ∧
  ∃ d,
    Mongo.eval_aggregate Example.dot
      (MongoDBService.vector_search_pipeline Example.settings3 [1; 0; 0]%Q "u1" 1)
      (collection Example.world) = inr [d] ∧
    d !! "title" = Some (VStr "Trip to Kyoto").
Proof. split; [vm_compute; reflexivity|]. eexists. split; [vm_compute; reflexivity|reflexivity]. Qed.

(** Listing with a negative limit is refused before the store is asked. *)
Example list_with_negative_limit :
  MongoDBService.list_notes Example.env "u1" (-1) Example.world
  = (Example.world, inl (Exn ValueErrorC "length must be non-negative")).
Proof. reflexivity. Qed.

(** A limit of 2^63 does not fit the 8 bytes of an integer of the store:
    the listing is refused before the store is asked, and the route
    answers with a status 500. *)
Example list_with_limit_beyond_8_bytes :
  Routes.list_user_notes Example.env "u1" (2 ^ 63) Example.world
  = (Example.world,
     inl (HTTPException 500
            "Failed to list notes: MongoDB can only handle up to 8-byte ints")).
Proof. reflexivity. Qed.

(** The listing of [u1]: the most recently updated note first. *)
Example list_of_owner :
  ∃ w' notes,
    MongoDBService.list_notes Example.env "u1" 10 Example.world = (w', inr notes) ∧
    (λ d : doc, d !! "title") <$> notes
    = [Some (VStr "Groceries"); Some (VStr "Trip to Kyoto")].
Proof. eexists _, _. split; [vm_compute; reflexivity|]. reflexivity. Qed.

(** When the read after the write fails, the note stays stored and the
    request ends in an error. *)
Example read_back_failure_keeps_the_note :
  let env := {| embed_content := Example.provider;
                similarity := Example.dot;
                store_fault := λ op, match op with
                                     | OpFindOne => Some (Exn StoreErrorC "connection reset")
                                     | _ => None
                                     end;
                utcnow := 4000;
                new_object_id := Example.oid "4";
                time_start := 10%Q;
                time_end := (21 # 2)%Q |} in
  ∃ w',
    Routes.create_note Example.settings3 env Example.osaka Example.world
    = (w', inl (HTTPException 500
                  "Failed to create note: 500: Failed to retrieve created note")) ∧
    length (collection w') = 4%nat.
Proof. eexists. split; [vm_compute; reflexivity|]. reflexivity. Qed.
